(** * RealSenseBase (realsense_ros/src/rs_base.cpp): model and properties

    A shallow embedding of the base class of the RealSense ROS 2 node:
    the stream set-up, the calibration cache, the image publishing path and
    the three reconfiguration handlers, followed by the properties of the
    design document that can be stated over them.

    What lives outside rs_base.cpp is kept apart from the translated code:
    - the catalog of rs_base.hpp (the nine stream identities, the lookup
      tables and the defaults) is a record [Catalog] the development is
      parametric in;
    - the camera SDK (what a configuration resolves to) and the node
      options (parameter overrides, intra-process flag) are a record
      [Platform], also a parameter;
    - [rs2::config] is a finite map from stream identity to the requested
      profile, [rs2::pipeline] and [rclcpp::sleep_for] are recorded as the
      sequence of calls made on them, publishers as the sequence of
      messages handed to them. *)

From Stdlib Require Import ZArith Lia Floats.PrimFloat.
From stdpp Require Import gmap strings list fin_maps pretty finite.

Local Open Scope Z_scope.

(** ** Machine integers *)

(** [static_cast<int>] of a 64-bit value, and every implicit narrowing to
    [int]: reduction modulo 2^32 into the signed range. *)
Definition to_int (z : Z) : Z := (z + 2 ^ 31) mod 2 ^ 32 - 2 ^ 31.

(** Conversion of an [int] to the [uint32] fields of a message. *)
Definition to_uint32 (z : Z) : Z := z mod 2 ^ 32.

Definition int_range (z : Z) : Prop := - 2 ^ 31 <= z < 2 ^ 31.

(** ** SDK types *)

Inductive rs2_stream :=
| RS2_STREAM_DEPTH
| RS2_STREAM_COLOR
| RS2_STREAM_INFRARED
| RS2_STREAM_FISHEYE
| RS2_STREAM_GYRO
| RS2_STREAM_ACCEL
| RS2_STREAM_POSE.

#[global] Instance rs2_stream_eq_dec : EqDecision rs2_stream.
Proof. solve_decision. Defined.

#[global] Instance rs2_stream_finite : Finite rs2_stream.
Proof.
  refine {| enum := [RS2_STREAM_DEPTH; RS2_STREAM_COLOR; RS2_STREAM_INFRARED;
                     RS2_STREAM_FISHEYE; RS2_STREAM_GYRO; RS2_STREAM_ACCEL;
                     RS2_STREAM_POSE] |}.
  - by apply (bool_decide_unpack _).
  - by intros []; apply (bool_decide_unpack _).
Defined.

(** [stream_index_pair] is [std::pair<rs2_stream, int>]; the index of a
    stream identity is a small non-negative number. *)
Abbreviation stream_index_pair := (rs2_stream * nat)%type.

Inductive rs2_format :=
| RS2_FORMAT_ANY
| RS2_FORMAT_Z16
| RS2_FORMAT_RGB8
| RS2_FORMAT_Y8
| RS2_FORMAT_MOTION_XYZ32F
| RS2_FORMAT_6DOF.

#[global] Instance rs2_format_eq_dec : EqDecision rs2_format.
Proof. solve_decision. Defined.

(** One entry of an [rs2::config]: the profile requested for a stream. *)
Record stream_request := {
  rq_width : Z;
  rq_height : Z;
  rq_format : rs2_format;
  rq_fps : Z
}.

#[global] Instance stream_request_eq_dec : EqDecision stream_request.
Proof. solve_decision. Defined.

Abbreviation config := (gmap stream_index_pair stream_request).

(** [cfg.enable_stream(type, index)]: any format, any size, any rate. *)
Definition any_request : stream_request :=
  {| rq_width := 0; rq_height := 0; rq_format := RS2_FORMAT_ANY; rq_fps := 0 |}.

Definition enable_stream (s : stream_index_pair) (rq : stream_request)
  (cfg : config) : config := <[s := rq]> cfg.

Definition disable_stream (s : stream_index_pair) (cfg : config) : config :=
  delete s cfg.

Module Intrinsics.
(** [rs2_intrinsics]; [coeffs] is [float coeffs[5]]. *)
Record t := {
  width : Z;
  height : Z;
  ppx : float;
  ppy : float;
  fx : float;
  fy : float;
  coeffs : float * float * float * float * float
}.

Definition coeff (i : t) (n : nat) : float :=
  let '(c0, c1, c2, c3, c4) := coeffs i in
  match n with
  | 0%nat => c0 | 1%nat => c1 | 2%nat => c2 | 3%nat => c3 | _ => c4
  end.
End Intrinsics.

Record video_stream_profile := {
  stream_type : rs2_stream;
  stream_index : nat;
  get_intrinsics : Intrinsics.t
}.

Inductive stream_profile :=
| video_profile (p : video_stream_profile)
| motion_profile (s : stream_index_pair).

Record video_frame := {
  get_profile : stream_index_pair;
  get_width : Z;
  get_height : Z;
  get_data : list Z
}.

(** ** Middleware types *)

Inductive ParameterValue :=
| PARAMETER_NOT_SET
| PARAMETER_BOOL (b : bool)
| PARAMETER_INTEGER (i : Z)
| PARAMETER_DOUBLE (d : float)
| PARAMETER_STRING (s : string)
| PARAMETER_BYTE_ARRAY (l : list Z)
| PARAMETER_BOOL_ARRAY (l : list bool)
| PARAMETER_INTEGER_ARRAY (l : list Z)
| PARAMETER_DOUBLE_ARRAY (l : list float)
| PARAMETER_STRING_ARRAY (l : list string).

Module ParameterType.
Inductive t :=
| PARAMETER_NOT_SET
| PARAMETER_BOOL
| PARAMETER_INTEGER
| PARAMETER_DOUBLE
| PARAMETER_STRING
| PARAMETER_BYTE_ARRAY
| PARAMETER_BOOL_ARRAY
| PARAMETER_INTEGER_ARRAY
| PARAMETER_DOUBLE_ARRAY
| PARAMETER_STRING_ARRAY.

#[global] Instance eq_dec : EqDecision t.
Proof. solve_decision. Defined.
End ParameterType.

Definition get_type (v : ParameterValue) : ParameterType.t :=
  match v with
  | PARAMETER_NOT_SET => ParameterType.PARAMETER_NOT_SET
  | PARAMETER_BOOL _ => ParameterType.PARAMETER_BOOL
  | PARAMETER_INTEGER _ => ParameterType.PARAMETER_INTEGER
  | PARAMETER_DOUBLE _ => ParameterType.PARAMETER_DOUBLE
  | PARAMETER_STRING _ => ParameterType.PARAMETER_STRING
  | PARAMETER_BYTE_ARRAY _ => ParameterType.PARAMETER_BYTE_ARRAY
  | PARAMETER_BOOL_ARRAY _ => ParameterType.PARAMETER_BOOL_ARRAY
  | PARAMETER_INTEGER_ARRAY _ => ParameterType.PARAMETER_INTEGER_ARRAY
  | PARAMETER_DOUBLE_ARRAY _ => ParameterType.PARAMETER_DOUBLE_ARRAY
  | PARAMETER_STRING_ARRAY _ => ParameterType.PARAMETER_STRING_ARRAY
  end.

Record ParameterDescriptor := { read_only : bool }.

Module Header.
Record t := { frame_id : string; stamp : Z }.
Definition empty : t := {| frame_id := ""; stamp := 0 |}.
End Header.

Module Image.
Record t := {
  header : Header.t;
  height : Z;
  width : Z;
  encoding : string;
  data : list Z
}.
End Image.

Module CameraInfo.
(** [sensor_msgs::msg::CameraInfo]: [k], [r] are [std::array<double, 9>],
    [p] is [std::array<double, 12>], [d] is [std::vector<double>]. *)
Record t := {
  header : Header.t;
  height : Z;
  width : Z;
  distortion_model : string;
  d : list float;
  k : list float;
  r : list float;
  p : list float
}.

(** The message as its generated constructor leaves it: numbers zeroed,
    strings and vectors empty. *)
Definition empty : t :=
  {| header := Header.empty; height := 0; width := 0;
     distortion_model := ""; d := [];
     k := replicate 9 0%float; r := replicate 9 0%float;
     p := replicate 12 0%float |}.
End CameraInfo.

(** A publisher is known by the topic and queue depth it was created with. *)
Record Publisher := { topic : string; qos_depth : nat }.

Definition create_publisher (t : string) : Publisher :=
  {| topic := t; qos_depth := 1 |}.

Inductive Message :=
| image_shared (m : Image.t)
| image_unique (m : Image.t)
| camera_info (m : CameraInfo.t).

(** [SetParametersResult]. *)
Record Result := { successful : bool; reason : string }.

(** ** The class *)

Record VideoStreamInfo := { vs_width : Z; vs_height : Z; vs_fps : Z }.

Inductive callback := publishTopicsCallback.

(** Calls on [pipeline_], and the settling delay between them. *)
Inductive call :=
| pipeline_stop
| sleep_for (ms : Z)
| pipeline_start (cfg : config) (cb : callback).

Record RealSenseBase := {
  node_parameters : gmap string (ParameterValue * ParameterDescriptor);
  cfg_ : config;
  calls : list call;
  enable_ : gmap stream_index_pair bool;
  stream_info_ : gmap stream_index_pair VideoStreamInfo;
  camera_info_ : gmap stream_index_pair CameraInfo.t;
  image_pub_ : gmap stream_index_pair Publisher;
  camera_info_pub_ : gmap stream_index_pair Publisher;
  imu_pub_ : gmap stream_index_pair Publisher;
  imu_info_pub_ : gmap stream_index_pair Publisher;
  odom_pub_ : option Publisher;
  published : list (Publisher * Message)
}.

(** The object right after construction. *)
Definition constructed : RealSenseBase :=
  {| node_parameters := ∅; cfg_ := ∅; calls := []; enable_ := ∅;
     stream_info_ := ∅; camera_info_ := ∅; image_pub_ := ∅;
     camera_info_pub_ := ∅; imu_pub_ := ∅; imu_info_pub_ := ∅;
     odom_pub_ := None; published := [] |}.

Definition with_node_parameters f (st : RealSenseBase) : RealSenseBase :=
  {| node_parameters := f (node_parameters st); cfg_ := cfg_ st;
     calls := calls st; enable_ := enable_ st;
     stream_info_ := stream_info_ st; camera_info_ := camera_info_ st;
     image_pub_ := image_pub_ st; camera_info_pub_ := camera_info_pub_ st;
     imu_pub_ := imu_pub_ st; imu_info_pub_ := imu_info_pub_ st;
     odom_pub_ := odom_pub_ st; published := published st |}.

Definition with_cfg f (st : RealSenseBase) : RealSenseBase :=
  {| node_parameters := node_parameters st; cfg_ := f (cfg_ st);
     calls := calls st; enable_ := enable_ st;
     stream_info_ := stream_info_ st; camera_info_ := camera_info_ st;
     image_pub_ := image_pub_ st; camera_info_pub_ := camera_info_pub_ st;
     imu_pub_ := imu_pub_ st; imu_info_pub_ := imu_info_pub_ st;
     odom_pub_ := odom_pub_ st; published := published st |}.

Definition with_calls f (st : RealSenseBase) : RealSenseBase :=
  {| node_parameters := node_parameters st; cfg_ := cfg_ st;
     calls := f (calls st); enable_ := enable_ st;
     stream_info_ := stream_info_ st; camera_info_ := camera_info_ st;
     image_pub_ := image_pub_ st; camera_info_pub_ := camera_info_pub_ st;
     imu_pub_ := imu_pub_ st; imu_info_pub_ := imu_info_pub_ st;
     odom_pub_ := odom_pub_ st; published := published st |}.

Definition with_enable f (st : RealSenseBase) : RealSenseBase :=
  {| node_parameters := node_parameters st; cfg_ := cfg_ st;
     calls := calls st; enable_ := f (enable_ st);
     stream_info_ := stream_info_ st; camera_info_ := camera_info_ st;
     image_pub_ := image_pub_ st; camera_info_pub_ := camera_info_pub_ st;
     imu_pub_ := imu_pub_ st; imu_info_pub_ := imu_info_pub_ st;
     odom_pub_ := odom_pub_ st; published := published st |}.

Definition with_stream_info f (st : RealSenseBase) : RealSenseBase :=
  {| node_parameters := node_parameters st; cfg_ := cfg_ st;
     calls := calls st; enable_ := enable_ st;
     stream_info_ := f (stream_info_ st); camera_info_ := camera_info_ st;
     image_pub_ := image_pub_ st; camera_info_pub_ := camera_info_pub_ st;
     imu_pub_ := imu_pub_ st; imu_info_pub_ := imu_info_pub_ st;
     odom_pub_ := odom_pub_ st; published := published st |}.

Definition with_camera_info f (st : RealSenseBase) : RealSenseBase :=
  {| node_parameters := node_parameters st; cfg_ := cfg_ st;
     calls := calls st; enable_ := enable_ st;
     stream_info_ := stream_info_ st; camera_info_ := f (camera_info_ st);
     image_pub_ := image_pub_ st; camera_info_pub_ := camera_info_pub_ st;
     imu_pub_ := imu_pub_ st; imu_info_pub_ := imu_info_pub_ st;
     odom_pub_ := odom_pub_ st; published := published st |}.

Definition with_image_pub f (st : RealSenseBase) : RealSenseBase :=
  {| node_parameters := node_parameters st; cfg_ := cfg_ st;
     calls := calls st; enable_ := enable_ st;
     stream_info_ := stream_info_ st; camera_info_ := camera_info_ st;
     image_pub_ := f (image_pub_ st); camera_info_pub_ := camera_info_pub_ st;
     imu_pub_ := imu_pub_ st; imu_info_pub_ := imu_info_pub_ st;
     odom_pub_ := odom_pub_ st; published := published st |}.

Definition with_camera_info_pub f (st : RealSenseBase) : RealSenseBase :=
  {| node_parameters := node_parameters st; cfg_ := cfg_ st;
     calls := calls st; enable_ := enable_ st;
     stream_info_ := stream_info_ st; camera_info_ := camera_info_ st;
     image_pub_ := image_pub_ st; camera_info_pub_ := f (camera_info_pub_ st);
     imu_pub_ := imu_pub_ st; imu_info_pub_ := imu_info_pub_ st;
     odom_pub_ := odom_pub_ st; published := published st |}.

Definition with_imu_pub f (st : RealSenseBase) : RealSenseBase :=
  {| node_parameters := node_parameters st; cfg_ := cfg_ st;
     calls := calls st; enable_ := enable_ st;
     stream_info_ := stream_info_ st; camera_info_ := camera_info_ st;
     image_pub_ := image_pub_ st; camera_info_pub_ := camera_info_pub_ st;
     imu_pub_ := f (imu_pub_ st); imu_info_pub_ := imu_info_pub_ st;
     odom_pub_ := odom_pub_ st; published := published st |}.

Definition with_imu_info_pub f (st : RealSenseBase) : RealSenseBase :=
  {| node_parameters := node_parameters st; cfg_ := cfg_ st;
     calls := calls st; enable_ := enable_ st;
     stream_info_ := stream_info_ st; camera_info_ := camera_info_ st;
     image_pub_ := image_pub_ st; camera_info_pub_ := camera_info_pub_ st;
     imu_pub_ := imu_pub_ st; imu_info_pub_ := f (imu_info_pub_ st);
     odom_pub_ := odom_pub_ st; published := published st |}.

Definition with_odom_pub f (st : RealSenseBase) : RealSenseBase :=
  {| node_parameters := node_parameters st; cfg_ := cfg_ st;
     calls := calls st; enable_ := enable_ st;
     stream_info_ := stream_info_ st; camera_info_ := camera_info_ st;
     image_pub_ := image_pub_ st; camera_info_pub_ := camera_info_pub_ st;
     imu_pub_ := imu_pub_ st; imu_info_pub_ := imu_info_pub_ st;
     odom_pub_ := f (odom_pub_ st); published := published st |}.

Definition with_published f (st : RealSenseBase) : RealSenseBase :=
  {| node_parameters := node_parameters st; cfg_ := cfg_ st;
     calls := calls st; enable_ := enable_ st;
     stream_info_ := stream_info_ st; camera_info_ := camera_info_ st;
     image_pub_ := image_pub_ st; camera_info_pub_ := camera_info_pub_ st;
     imu_pub_ := imu_pub_ st; imu_info_pub_ := imu_info_pub_ st;
     odom_pub_ := odom_pub_ st; published := f (published st) |}.

(** ** Member functions as state transformers

    A member function either returns, or leaves through a C++ exception
    (the object keeps the changes made so far), or runs into undefined
    behaviour. *)

Inductive exception :=
| out_of_range (table : string)
| ParameterTypeException
| ParameterAlreadyDeclaredException (name : string)
| rs2_error.

Inductive undefined :=
| vector_subscript (size index : nat)
| null_publisher (s : stream_index_pair)
| indeterminate_int.

Inductive outcome (A : Type) :=
| Returns (a : A) (st : RealSenseBase)
| Throws (e : exception) (st : RealSenseBase)
| Undefined (u : undefined).
Arguments Returns {A} a st.
Arguments Throws {A} e st.
Arguments Undefined {A} u.

Definition M (A : Type) : Type := RealSenseBase → outcome A.

Definition ret {A} (a : A) : M A := fun st => Returns a st.

Definition bind {A B} (m : M A) (f : A → M B) : M B :=
  fun st =>
    match m st with
    | Returns a st' => f a st'
    | Throws e st' => Throws e st'
    | Undefined u => Undefined u
    end.

Definition throw {A} (e : exception) : M A := fun st => Throws e st.
Definition undefined_behaviour {A} (u : undefined) : M A := fun _ => Undefined u.
Definition get : M RealSenseBase := fun st => Returns st st.
Definition modify (f : RealSenseBase → RealSenseBase) : M unit :=
  fun st => Returns tt (f st).

Notation "'do' x <- m ; k" := (bind m (fun x => k))
  (at level 10, x name, m at level 100, k at level 200,
   format "'[v' 'do'  x  <-  m ; '/' k ']'").
Notation "m ;; k" := (bind m (fun _ => k))
  (at level 100, k at level 200, right associativity).

(** [when c m]: [if (c) { m }]. *)
Definition when (c : bool) (m : M unit) : M unit := if c then m else ret tt.

(** [table.at(key)] on a [const std::map]. *)
Definition at_ `{Countable K} {V} (name : string) (table : gmap K V) (key : K)
  : M V :=
  match table !! key with
  | Some v => ret v
  | None => throw (out_of_range name)
  end.

(** [v[i]] on a [std::vector]: no bounds check. *)
Definition subscript (v : list Z) (i : nat) : M Z :=
  match v !! i with
  | Some x => ret x
  | None => undefined_behaviour (vector_subscript (length v) i)
  end.

(** [map.insert(std::pair(key, value))]: keeps an entry that is there. *)
Definition map_insert `{Countable K} {V} (key : K) (v : V) (m : gmap K V)
  : gmap K V :=
  match m !! key with
  | Some _ => m
  | None => <[key := v]> m
  end.

(** [map[key]] on a [std::map]: a missing key is first inserted with the
    value-initialised element. *)
Definition map_subscript `{Countable K} {V} (dflt : V) (key : K)
  (m : gmap K V) : gmap K V :=
  match m !! key with
  | Some _ => m
  | None => <[key := dflt]> m
  end.

(** ** What rs_base.hpp and the platform provide *)

(** The catalog of rs_base.hpp: the nine stream identities, the tables
    keyed by stream kind or identity, and the defaults. *)
Record Catalog := {
  COLOR : stream_index_pair;
  DEPTH : stream_index_pair;
  INFRA1 : stream_index_pair;
  INFRA2 : stream_index_pair;
  FISHEYE1 : stream_index_pair;
  FISHEYE2 : stream_index_pair;
  ACCEL : stream_index_pair;
  GYRO : stream_index_pair;
  POSE : stream_index_pair;
  STREAM_NAME : gmap rs2_stream string;
  STREAM_FORMAT : gmap rs2_stream rs2_format;
  MSG_ENCODING : gmap rs2_stream string;
  CV_FORMAT : gmap rs2_stream Z;
  SAMPLE_TOPIC : gmap stream_index_pair string;
  INFO_TOPIC : gmap stream_index_pair string;
  OPTICAL_FRAME_ID : gmap stream_index_pair string;
  DEFAULT_IMAGE_RESOLUTION : list Z;
  FISHEYE_RESOLUTION : list Z;
  DEFAULT_IMAGE_FPS : Z;
  (** [VideoStreamInfo()], the element [stream_info_[s]] creates. *)
  VideoStreamInfo_default : VideoStreamInfo
}.

(** The device behind the SDK and the options the node was created with. *)
Record Platform := {
  (** [cfg.can_resolve(pipeline)] *)
  can_resolve : config → bool;
  (** [cfg.resolve(pipeline).get_streams()]; [None] when the SDK throws *)
  resolve : config → option (list stream_profile);
  (** parameter values supplied from outside (launch file, command line) *)
  parameter_overrides : gmap string ParameterValue;
  use_intra_process_comms : bool
}.


(** [a == b] on stream identities. *)
Definition stream_eqb (a b : stream_index_pair) : bool := bool_decide (a = b).

(** ** What the object shows for a stream *)

(** [enable_[s]] as every reader of the map sees it: a missing entry
    reads [false]. *)
Definition enabled (st : RealSenseBase) (s : stream_index_pair) : bool :=
  default false (enable_ st !! s).

(** [stream_info_[s]] as a reader sees it. *)
Definition stream_info (cat : Catalog) (st : RealSenseBase)
  (s : stream_index_pair) : VideoStreamInfo :=
  default (VideoStreamInfo_default cat) (stream_info_ st !! s).

(** [camera_info_[s]] as a reader sees it. *)
Definition camera_info_of (st : RealSenseBase) (s : stream_index_pair)
  : CameraInfo.t :=
  default CameraInfo.empty (camera_info_ st !! s).

(** The stream has an entry in the SDK configuration. *)
Definition cfg_has (st : RealSenseBase) (s : stream_index_pair) : bool :=
  bool_decide (is_Some (cfg_ st !! s)).

Section RealSenseBase.
Variable cat : Catalog.
Variable env : Platform.

(** *** Node parameters *)

(** [node_.declare_parameter(name, default_value, descriptor)]: refuses
    a name that is declared, and takes the value supplied from outside
    when there is one. *)
Definition declare_parameter (name : string) (default_value : ParameterValue)
  (descriptor : ParameterDescriptor) : M ParameterValue :=
  do st <- get;
  match node_parameters st !! name with
  | Some _ => throw (ParameterAlreadyDeclaredException name)
  | None =>
      let v := default (default_value) (parameter_overrides env !! name) in
      modify (with_node_parameters (insert name (v, descriptor)));;
      ret v
  end.

(** [ParameterValue::get<T>()], which [Parameter::as_bool],
    [as_integer_array] and [as_int] go through as well: the stored type
    has to be the one asked for. *)
Definition get_bool (v : ParameterValue) : M bool :=
  match v with
  | PARAMETER_BOOL b => ret b
  | _ => throw ParameterTypeException
  end.

Definition get_integer (v : ParameterValue) : M Z :=
  match v with
  | PARAMETER_INTEGER i => ret i
  | _ => throw ParameterTypeException
  end.

Definition get_integer_array (v : ParameterValue) : M (list Z) :=
  match v with
  | PARAMETER_INTEGER_ARRAY l => ret l
  | _ => throw ParameterTypeException
  end.

Definition writable : ParameterDescriptor := {| read_only := false |}.

(** *** Accessors of the member maps *)

(** Reading [enable_[s]]. *)
Definition enable_at (s : stream_index_pair) : M bool :=
  do st <- get;
  modify (with_enable (map_subscript false s));;
  ret (enabled st s).

(** [enable_[s] = b]. *)
Definition set_enable (s : stream_index_pair) (b : bool) : M unit :=
  modify (with_enable (insert s b)).

(** Reading [stream_info_[s]]. *)
Definition stream_info_at (s : stream_index_pair) : M VideoStreamInfo :=
  do st <- get;
  modify (with_stream_info (map_subscript (VideoStreamInfo_default cat) s));;
  ret (stream_info cat st s).

(** Assigning a member through [stream_info_[s]]. *)
Definition update_stream_info (s : stream_index_pair)
  (f : VideoStreamInfo → VideoStreamInfo) : M unit :=
  do st <- get;
  modify (with_stream_info (insert s (f (stream_info cat st s)))).

(** Reading [camera_info_[s]]. *)
Definition camera_info_at (s : stream_index_pair) : M CameraInfo.t :=
  do st <- get;
  modify (with_camera_info (map_subscript CameraInfo.empty s));;
  ret (camera_info_of st s).

(** Assigning a member through [camera_info_[s]]. *)
Definition update_camera_info (s : stream_index_pair)
  (f : CameraInfo.t → CameraInfo.t) : M unit :=
  do st <- get;
  modify (with_camera_info (insert s (f (camera_info_of st s)))).

Definition call_ (c : call) : M unit := modify (with_calls (λ l, l ++ [c])).

(** [pipeline_.start(cfg_, std::bind(&publishTopicsCallback, ...))] *)
Definition pipeline_start_cfg : M unit :=
  do st <- get;
  call_ (pipeline_start (cfg_ st) publishTopicsCallback).

(** [pub[s]->publish(msg)]; a stream that was never set up has a null
    publisher. *)
Definition publish (pubs : RealSenseBase → gmap stream_index_pair Publisher)
  (s : stream_index_pair) (msg : Message) : M unit :=
  do st <- get;
  match pubs st !! s with
  | Some pub => modify (with_published (λ l, l ++ [(pub, msg)]))
  | None => undefined_behaviour (null_publisher s)
  end.

(** [RCLCPP_INFO(..., STREAM_NAME.at(stream.first).c_str())] *)
Definition log_stream_name (s : stream_index_pair) : M unit :=
  do _ <- at_ "STREAM_NAME" (STREAM_NAME cat) s.1;
  ret tt.

Fixpoint for_ {A} (l : list A) (body : A → M unit) : M unit :=
  match l with
  | [] => ret tt
  | x :: l' => body x;; for_ l' body
  end.

(** *** setupStream (lines 48-102) *)

(** [os << STREAM_NAME.at(stream.first) << stream.second << suffix] *)
Definition parameter_name (s : stream_index_pair) (suffix : string)
  : M string :=
  do name <- at_ "STREAM_NAME" (STREAM_NAME cat) s.1;
  ret (name +:+ pretty s.2 +:+ suffix).

(** Lines 70-88: the local [res] and [fps]; outside the two groups of
    video streams [res] stays empty and [fps] is never assigned. *)
Definition declare_video_parameters (stream : stream_index_pair)
  : M (list Z * option Z) :=
  if stream_eqb stream (COLOR cat) || stream_eqb stream (DEPTH cat) ||
     stream_eqb stream (INFRA1 cat) || stream_eqb stream (INFRA2 cat)
  then
    do n <- parameter_name stream ".resolution";
    do v <- declare_parameter n
              (PARAMETER_INTEGER_ARRAY (DEFAULT_IMAGE_RESOLUTION cat)) writable;
    do res <- get_integer_array v;
    do n <- parameter_name stream ".fps";
    do v <- declare_parameter n
              (PARAMETER_INTEGER (DEFAULT_IMAGE_FPS cat)) writable;
    do fps <- get_integer v;
    ret (res, Some (to_int fps))
  else if stream_eqb stream (FISHEYE1 cat) || stream_eqb stream (FISHEYE2 cat)
  then
    let param_desc := {| read_only := true |} in
    do n <- parameter_name stream ".resolution";
    do v <- declare_parameter n
              (PARAMETER_INTEGER_ARRAY (FISHEYE_RESOLUTION cat)) param_desc;
    do res <- get_integer_array v;
    do n <- parameter_name stream ".fps";
    do v <- declare_parameter n
              (PARAMETER_INTEGER (DEFAULT_IMAGE_FPS cat)) param_desc;
    do fps <- get_integer v;
    ret (res, Some (to_int fps))
  else ret ([], None).

(** Lines 90-100, from the local [res] and [fps] on. *)
Definition setup_video_stream (stream : stream_index_pair) (enable : bool)
  (res : list Z) (fps : option Z) : M unit :=
  do w <- subscript res 0;
  do h <- subscript res 1;
  do fps <- match fps with
            | Some f => ret f
            | None => undefined_behaviour indeterminate_int
            end;
  let info := {| vs_width := to_int w; vs_height := to_int h; vs_fps := fps |} in
  modify (with_stream_info (map_insert stream info));;
  do sample <- at_ "SAMPLE_TOPIC" (SAMPLE_TOPIC cat) stream;
  modify (with_image_pub (map_insert stream (create_publisher sample)));;
  do info_topic <- at_ "INFO_TOPIC" (INFO_TOPIC cat) stream;
  modify (with_camera_info_pub (map_insert stream (create_publisher info_topic)));;
  when enable (
    set_enable stream true;;
    do format <- at_ "STREAM_FORMAT" (STREAM_FORMAT cat) stream.1;
    modify (with_cfg (enable_stream stream
              {| rq_width := vs_width info; rq_height := vs_height info;
                 rq_format := format; rq_fps := vs_fps info |}))).

Definition setupStream (stream : stream_index_pair) : M unit :=
  do n <- parameter_name stream ".enabled";
  do v <- declare_parameter n (PARAMETER_BOOL false) writable;
  do enable <- get_bool v;
  if stream_eqb stream (ACCEL cat) || stream_eqb stream (GYRO cat) then
    do sample <- at_ "SAMPLE_TOPIC" (SAMPLE_TOPIC cat) stream;
    modify (with_imu_pub (map_insert stream (create_publisher sample)));;
    do info_topic <- at_ "INFO_TOPIC" (INFO_TOPIC cat) stream;
    modify (with_imu_info_pub (map_insert stream (create_publisher info_topic)));;
    when enable (
      set_enable stream true;;
      modify (with_cfg (enable_stream stream any_request)))
  else if stream_eqb stream (POSE cat) then
    do sample <- at_ "SAMPLE_TOPIC" (SAMPLE_TOPIC cat) stream;
    modify (with_odom_pub (λ _, Some (create_publisher sample)));;
    when enable (
      set_enable stream true;;
      modify (with_cfg (enable_stream stream any_request)))
  else
    do res_fps <- declare_video_parameters stream;
    setup_video_stream stream enable res_fps.1 res_fps.2.

(** *** publishImageTopic (lines 104-138) *)

(** [cv_bridge::CvImage(std_msgs::msg::Header(), encoding, cv_image)
    .toImageMsg()] over the frame's buffer. *)
Definition toImageMsg (encoding : string) (frame : video_frame) : Image.t :=
  {| Image.header := Header.empty;
     Image.height := get_height frame; Image.width := get_width frame;
     Image.encoding := encoding; Image.data := get_data frame |}.

Definition image_set_frame_id (f : string) (m : Image.t) : Image.t :=
  {| Image.header := {| Header.frame_id := f;
                        Header.stamp := Header.stamp (Image.header m) |};
     Image.height := Image.height m; Image.width := Image.width m;
     Image.encoding := Image.encoding m; Image.data := Image.data m |}.

Definition image_set_stamp (t : Z) (m : Image.t) : Image.t :=
  {| Image.header := {| Header.frame_id := Header.frame_id (Image.header m);
                        Header.stamp := t |};
     Image.height := Image.height m; Image.width := Image.width m;
     Image.encoding := Image.encoding m; Image.data := Image.data m |}.

Definition with_header (f : Header.t → Header.t) (m : CameraInfo.t)
  : CameraInfo.t :=
  {| CameraInfo.header := f (CameraInfo.header m);
     CameraInfo.height := CameraInfo.height m;
     CameraInfo.width := CameraInfo.width m;
     CameraInfo.distortion_model := CameraInfo.distortion_model m;
     CameraInfo.d := CameraInfo.d m; CameraInfo.k := CameraInfo.k m;
     CameraInfo.r := CameraInfo.r m; CameraInfo.p := CameraInfo.p m |}.

Definition set_stamp (t : Z) (h : Header.t) : Header.t :=
  {| Header.frame_id := Header.frame_id h; Header.stamp := t |}.

Definition set_frame_id (f : string) (h : Header.t) : Header.t :=
  {| Header.frame_id := f; Header.stamp := Header.stamp h |}.

Definition publishImageTopic (frame : video_frame) (time : Z) : M unit :=
  let type_index := get_profile frame in
  let type := type_index.1 in
  do cv_format <- at_ "CV_FORMAT" (CV_FORMAT cat) type;
  (if negb (use_intra_process_comms env) then
     do encoding <- at_ "MSG_ENCODING" (MSG_ENCODING cat) type;
     let img := toImageMsg encoding frame in
     do frame_id <- at_ "OPTICAL_FRAME_ID" (OPTICAL_FRAME_ID cat) type_index;
     let img := image_set_frame_id frame_id img in
     let img := image_set_stamp time img in
     publish image_pub_ type_index (image_shared img)
   else
     do encoding <- at_ "MSG_ENCODING" (MSG_ENCODING cat) type;
     let img := toImageMsg encoding frame in
     do frame_id <- at_ "OPTICAL_FRAME_ID" (OPTICAL_FRAME_ID cat) type_index;
     let img := image_set_frame_id frame_id img in
     let img := image_set_stamp time img in
     publish image_pub_ type_index (image_unique img));;
  update_camera_info type_index (with_header (set_stamp time));;
  do info <- camera_info_at type_index;
  publish camera_info_pub_ type_index (camera_info info).

(** *** updateVideoStreamCalibData (lines 140-189) *)

Definition with_size (w h : Z) (m : CameraInfo.t) : CameraInfo.t :=
  {| CameraInfo.header := CameraInfo.header m;
     CameraInfo.height := h; CameraInfo.width := w;
     CameraInfo.distortion_model := CameraInfo.distortion_model m;
     CameraInfo.d := CameraInfo.d m; CameraInfo.k := CameraInfo.k m;
     CameraInfo.r := CameraInfo.r m; CameraInfo.p := CameraInfo.p m |}.

Definition with_distortion_model (s : string) (m : CameraInfo.t)
  : CameraInfo.t :=
  {| CameraInfo.header := CameraInfo.header m;
     CameraInfo.height := CameraInfo.height m;
     CameraInfo.width := CameraInfo.width m;
     CameraInfo.distortion_model := s;
     CameraInfo.d := CameraInfo.d m; CameraInfo.k := CameraInfo.k m;
     CameraInfo.r := CameraInfo.r m; CameraInfo.p := CameraInfo.p m |}.

Definition with_d (f : list float → list float) (m : CameraInfo.t)
  : CameraInfo.t :=
  {| CameraInfo.header := CameraInfo.header m;
     CameraInfo.height := CameraInfo.height m;
     CameraInfo.width := CameraInfo.width m;
     CameraInfo.distortion_model := CameraInfo.distortion_model m;
     CameraInfo.d := f (CameraInfo.d m); CameraInfo.k := CameraInfo.k m;
     CameraInfo.r := CameraInfo.r m; CameraInfo.p := CameraInfo.p m |}.

Definition with_k (f : list float → list float) (m : CameraInfo.t)
  : CameraInfo.t :=
  {| CameraInfo.header := CameraInfo.header m;
     CameraInfo.height := CameraInfo.height m;
     CameraInfo.width := CameraInfo.width m;
     CameraInfo.distortion_model := CameraInfo.distortion_model m;
     CameraInfo.d := CameraInfo.d m; CameraInfo.k := f (CameraInfo.k m);
     CameraInfo.r := CameraInfo.r m; CameraInfo.p := CameraInfo.p m |}.

Definition with_r (f : list float → list float) (m : CameraInfo.t)
  : CameraInfo.t :=
  {| CameraInfo.header := CameraInfo.header m;
     CameraInfo.height := CameraInfo.height m;
     CameraInfo.width := CameraInfo.width m;
     CameraInfo.distortion_model := CameraInfo.distortion_model m;
     CameraInfo.d := CameraInfo.d m; CameraInfo.k := CameraInfo.k m;
     CameraInfo.r := f (CameraInfo.r m); CameraInfo.p := CameraInfo.p m |}.

Definition with_p (f : list float → list float) (m : CameraInfo.t)
  : CameraInfo.t :=
  {| CameraInfo.header := CameraInfo.header m;
     CameraInfo.height := CameraInfo.height m;
     CameraInfo.width := CameraInfo.width m;
     CameraInfo.distortion_model := CameraInfo.distortion_model m;
     CameraInfo.d := CameraInfo.d m; CameraInfo.k := CameraInfo.k m;
     CameraInfo.r := CameraInfo.r m; CameraInfo.p := f (CameraInfo.p m) |}.

(** [camera_info_[s].field.at(i) = v]: [at] checks the index. *)
Definition put_at (field : CameraInfo.t → list float)
  (with_field : (list float → list float) → CameraInfo.t → CameraInfo.t)
  (s : stream_index_pair) (i : nat) (v : float) : M unit :=
  do info <- camera_info_at s;
  if decide (i < length (field info))%nat
  then update_camera_info s (with_field (λ a, <[i := v]> a))
  else throw (out_of_range "array::at").

(** [camera_info_[s].field.at(i)] read. *)
Definition get_at (field : CameraInfo.t → list float)
  (s : stream_index_pair) (i : nat) : M float :=
  do info <- camera_info_at s;
  match field info !! i with
  | Some v => ret v
  | None => throw (out_of_range "array::at")
  end.

(** Lines 142-183: everything the function writes whatever the stream. *)
Definition fill_calibration (video_profile : video_stream_profile) : M unit :=
  let type_index := (stream_type video_profile, stream_index video_profile) in
  let intrinsic := get_intrinsics video_profile in
  let k_put := put_at CameraInfo.k with_k type_index in
  let p_put := put_at CameraInfo.p with_p type_index in
  let r_put := put_at CameraInfo.r with_r type_index in
  let d_put := put_at CameraInfo.d with_d type_index in
  let k_at := get_at CameraInfo.k type_index in
  update_camera_info type_index
    (λ m, with_size (to_uint32 (Intrinsics.width intrinsic))
                    (CameraInfo.height m) m);;
  update_camera_info type_index
    (λ m, with_size (CameraInfo.width m)
                    (to_uint32 (Intrinsics.height intrinsic)) m);;
  do frame_id <- at_ "OPTICAL_FRAME_ID" (OPTICAL_FRAME_ID cat) type_index;
  update_camera_info type_index (with_header (set_frame_id frame_id));;

  k_put 0%nat (Intrinsics.fx intrinsic);;
  k_put 2%nat (Intrinsics.ppx intrinsic);;
  k_put 4%nat (Intrinsics.fy intrinsic);;
  k_put 5%nat (Intrinsics.ppy intrinsic);;
  k_put 8%nat 1%float;;

  do k0 <- k_at 0%nat;
  p_put 0%nat k0;;
  p_put 1%nat 0%float;;
  do k2 <- k_at 2%nat;
  p_put 2%nat k2;;
  p_put 3%nat 0%float;;
  p_put 4%nat 0%float;;
  do k4 <- k_at 4%nat;
  p_put 5%nat k4;;
  do k5 <- k_at 5%nat;
  p_put 6%nat k5;;
  p_put 7%nat 0%float;;
  p_put 8%nat 0%float;;
  p_put 9%nat 0%float;;
  p_put 10%nat 1%float;;
  p_put 11%nat 0%float;;

  update_camera_info type_index (with_distortion_model "plumb_bob");;

  r_put 0%nat 1%float;;
  r_put 1%nat 0%float;;
  r_put 2%nat 0%float;;
  r_put 3%nat 0%float;;
  r_put 4%nat 1%float;;
  r_put 5%nat 0%float;;
  r_put 6%nat 0%float;;
  r_put 7%nat 0%float;;
  r_put 8%nat 1%float;;

  update_camera_info type_index (with_d (resize 5 0%float));;
  for_ (seq 0 5) (λ i, d_put i (Intrinsics.coeff intrinsic i)).

(** Lines 185-188: the translation terms of the depth stream when color
    streams as well. *)
Definition force_depth_translation (type_index : stream_index_pair) : M unit :=
  do depth_and_color <-
    (if stream_eqb type_index (DEPTH cat) then
       do depth <- enable_at (DEPTH cat);
       if depth then enable_at (COLOR cat) else ret false
     else ret false);
  when depth_and_color (
    put_at CameraInfo.p with_p type_index 3%nat 0%float;;
    put_at CameraInfo.p with_p type_index 7%nat 0%float).

Definition updateVideoStreamCalibData (video_profile : video_stream_profile)
  : M unit :=
  fill_calibration video_profile;;
  force_depth_translation
    (stream_type video_profile, stream_index video_profile).

(** *** startPipeline (lines 36-46) *)

Definition startPipeline : M unit :=
  do st <- get;
  match resolve env (cfg_ st) with
  | None => throw rs2_error
  | Some active_profiles =>
      for_ active_profiles
        (λ profile,
           match profile with
           | video_profile vp => updateVideoStreamCalibData vp
           | motion_profile _ => ret tt
           end);;
      pipeline_start_cfg
  end.

(** *** toggleStream (lines 239-269) *)

Definition toggleStream (stream : stream_index_pair) (param : ParameterValue)
  : M Result :=
  if bool_decide (get_type param ≠ ParameterType.PARAMETER_BOOL) then
    ret {| successful := false; reason := "Type should be boolean." |}
  else
    do as_bool <- get_bool param;
    do enabling <-
      (if as_bool then do e <- enable_at stream; ret (negb e) else ret false);
    if enabling then
      (if stream_eqb stream (ACCEL cat) || stream_eqb stream (GYRO cat) ||
          stream_eqb stream (POSE cat)
       then modify (with_cfg (enable_stream stream any_request))
       else
         do iw <- stream_info_at stream;
         do ih <- stream_info_at stream;
         do format <- at_ "STREAM_FORMAT" (STREAM_FORMAT cat) stream.1;
         do ifps <- stream_info_at stream;
         modify (with_cfg (enable_stream stream
                   {| rq_width := vs_width iw; rq_height := vs_height ih;
                      rq_format := format; rq_fps := vs_fps ifps |})));;
      call_ pipeline_stop;;
      call_ (sleep_for 200);;
      pipeline_start_cfg;;
      set_enable stream true;;
      log_stream_name stream;;
      ret {| successful := true; reason := "" |}
    else
      do as_bool <- get_bool param;
      do disabling <-
        (if negb as_bool then enable_at stream else ret false);
      if disabling then
        modify (with_cfg (disable_stream stream));;
        set_enable stream false;;
        log_stream_name stream;;
        ret {| successful := true; reason := "" |}
      else
        ret {| successful := false;
               reason := "Parameter is equal to the previous value. Do nothing." |}.

(** *** changeResolution (lines 271-294) *)

Definition set_width (w : Z) (i : VideoStreamInfo) : VideoStreamInfo :=
  {| vs_width := w; vs_height := vs_height i; vs_fps := vs_fps i |}.
Definition set_height (h : Z) (i : VideoStreamInfo) : VideoStreamInfo :=
  {| vs_width := vs_width i; vs_height := h; vs_fps := vs_fps i |}.
Definition set_fps (f : Z) (i : VideoStreamInfo) : VideoStreamInfo :=
  {| vs_width := vs_width i; vs_height := vs_height i; vs_fps := f |}.

Definition changeResolution (stream : stream_index_pair)
  (param : ParameterValue) : M Result :=
  if bool_decide (get_type param ≠ ParameterType.PARAMETER_INTEGER_ARRAY) then
    ret {| successful := false; reason := "Type should be integer array." |}
  else
    do res <- get_integer_array param;
    do res0 <- subscript res 0;
    do res1 <- subscript res 1;
    do format <- at_ "STREAM_FORMAT" (STREAM_FORMAT cat) stream.1;
    do info <- stream_info_at stream;
    modify (with_cfg (enable_stream stream
              {| rq_width := to_int res0; rq_height := to_int res1;
                 rq_format := format; rq_fps := vs_fps info |}));;
    do st <- get;
    if can_resolve env (cfg_ st) then
      do e <- enable_at stream;
      when e (call_ pipeline_stop;; pipeline_start_cfg);;
      do res0 <- subscript res 0;
      update_stream_info stream (set_width (to_int res0));;
      do res1 <- subscript res 1;
      update_stream_info stream (set_height (to_int res1));;
      ret {| successful := true; reason := "" |}
    else
      ret {| successful := false; reason := "Unsupported resolution." |}.

(** *** changeFPS (lines 296-319) *)

Definition changeFPS (stream : stream_index_pair) (param : ParameterValue)
  : M Result :=
  if bool_decide (get_type param ≠ ParameterType.PARAMETER_INTEGER) then
    ret {| successful := false; reason := "Type should be integer." |}
  else
    do as_int <- get_integer param;
    let fps := to_int as_int in
    do iw <- stream_info_at stream;
    do ih <- stream_info_at stream;
    do format <- at_ "STREAM_FORMAT" (STREAM_FORMAT cat) stream.1;
    modify (with_cfg (enable_stream stream
              {| rq_width := vs_width iw; rq_height := vs_height ih;
                 rq_format := format; rq_fps := fps |}));;
    do st <- get;
    if can_resolve env (cfg_ st) then
      do e <- enable_at stream;
      when e (call_ pipeline_stop;; pipeline_start_cfg);;
      update_stream_info stream (set_fps fps);;
      ret {| successful := true; reason := "" |}
    else
      ret {| successful := false; reason := "Unsupported configuration." |}.
End RealSenseBase.

(** ** A concrete node

    A catalog and a device in the shape the design document describes
    (parameters [Color0.enabled], topic [/camera/color/image_raw], frame
    [camera_color_optical_frame], 640x480 at 30 frames per second), to run
    the member functions on concrete inputs. *)

Definition example_catalog : Catalog :=
  {| COLOR := (RS2_STREAM_COLOR, 0%nat);
     DEPTH := (RS2_STREAM_DEPTH, 0%nat);
     INFRA1 := (RS2_STREAM_INFRARED, 1%nat);
     INFRA2 := (RS2_STREAM_INFRARED, 2%nat);
     FISHEYE1 := (RS2_STREAM_FISHEYE, 1%nat);
     FISHEYE2 := (RS2_STREAM_FISHEYE, 2%nat);
     ACCEL := (RS2_STREAM_ACCEL, 0%nat);
     GYRO := (RS2_STREAM_GYRO, 0%nat);
     POSE := (RS2_STREAM_POSE, 0%nat);
     STREAM_NAME := list_to_map
       [(RS2_STREAM_DEPTH, "Depth"); (RS2_STREAM_COLOR, "Color");
        (RS2_STREAM_INFRARED, "Infra"); (RS2_STREAM_FISHEYE, "Fisheye");
        (RS2_STREAM_GYRO, "Gyro"); (RS2_STREAM_ACCEL, "Accel");
        (RS2_STREAM_POSE, "Pose")];
     STREAM_FORMAT := list_to_map
       [(RS2_STREAM_DEPTH, RS2_FORMAT_Z16); (RS2_STREAM_COLOR, RS2_FORMAT_RGB8);
        (RS2_STREAM_INFRARED, RS2_FORMAT_Y8); (RS2_STREAM_FISHEYE, RS2_FORMAT_Y8);
        (RS2_STREAM_GYRO, RS2_FORMAT_MOTION_XYZ32F);
        (RS2_STREAM_ACCEL, RS2_FORMAT_MOTION_XYZ32F);
        (RS2_STREAM_POSE, RS2_FORMAT_6DOF)];
     MSG_ENCODING := list_to_map
       [(RS2_STREAM_DEPTH, "16UC1"); (RS2_STREAM_COLOR, "rgb8");
        (RS2_STREAM_INFRARED, "mono8"); (RS2_STREAM_FISHEYE, "mono8")];
     CV_FORMAT := list_to_map
       [(RS2_STREAM_DEPTH, 2); (RS2_STREAM_COLOR, 16);
        (RS2_STREAM_INFRARED, 0); (RS2_STREAM_FISHEYE, 0)];
     SAMPLE_TOPIC := list_to_map
       [((RS2_STREAM_COLOR, 0%nat), "/camera/color/image_raw");
        ((RS2_STREAM_DEPTH, 0%nat), "/camera/depth/image_rect_raw");
        ((RS2_STREAM_INFRARED, 1%nat), "/camera/infra1/image_rect_raw");
        ((RS2_STREAM_INFRARED, 2%nat), "/camera/infra2/image_rect_raw");
        ((RS2_STREAM_FISHEYE, 1%nat), "/camera/fisheye1/image_raw");
        ((RS2_STREAM_FISHEYE, 2%nat), "/camera/fisheye2/image_raw");
        ((RS2_STREAM_ACCEL, 0%nat), "/camera/accel/sample");
        ((RS2_STREAM_GYRO, 0%nat), "/camera/gyro/sample");
        ((RS2_STREAM_POSE, 0%nat), "/camera/odom/sample")];
     INFO_TOPIC := list_to_map
       [((RS2_STREAM_COLOR, 0%nat), "/camera/color/camera_info");
        ((RS2_STREAM_DEPTH, 0%nat), "/camera/depth/camera_info");
        ((RS2_STREAM_INFRARED, 1%nat), "/camera/infra1/camera_info");
        ((RS2_STREAM_INFRARED, 2%nat), "/camera/infra2/camera_info");
        ((RS2_STREAM_FISHEYE, 1%nat), "/camera/fisheye1/camera_info");
        ((RS2_STREAM_FISHEYE, 2%nat), "/camera/fisheye2/camera_info");
        ((RS2_STREAM_ACCEL, 0%nat), "/camera/accel/imu_info");
        ((RS2_STREAM_GYRO, 0%nat), "/camera/gyro/imu_info")];
     OPTICAL_FRAME_ID := list_to_map
       [((RS2_STREAM_COLOR, 0%nat), "camera_color_optical_frame");
        ((RS2_STREAM_DEPTH, 0%nat), "camera_depth_optical_frame");
        ((RS2_STREAM_INFRARED, 1%nat), "camera_infra1_optical_frame");
        ((RS2_STREAM_INFRARED, 2%nat), "camera_infra2_optical_frame");
        ((RS2_STREAM_FISHEYE, 1%nat), "camera_fisheye1_optical_frame");
        ((RS2_STREAM_FISHEYE, 2%nat), "camera_fisheye2_optical_frame")];
     DEFAULT_IMAGE_RESOLUTION := [640; 480];
     FISHEYE_RESOLUTION := [848; 800];
     DEFAULT_IMAGE_FPS := 30;
     VideoStreamInfo_default := {| vs_width := 0; vs_height := 0; vs_fps := 0 |} |}.

(** A device that streams 640x480 and 1280x720 at 15 or 30 frames per
    second, and whatever is requested without a size. *)
Definition example_supported (rq : stream_request) : bool :=
  bool_decide (rq = any_request) ||
  ((bool_decide (rq_width rq = 640) && bool_decide (rq_height rq = 480)) ||
   (bool_decide (rq_width rq = 1280) && bool_decide (rq_height rq = 720))) &&
  (bool_decide (rq_fps rq = 15) || bool_decide (rq_fps rq = 30)).

Definition example_intrinsics (w h : Z) : Intrinsics.t :=
  {| Intrinsics.width := w; Intrinsics.height := h;
     Intrinsics.ppx := 320.5%float; Intrinsics.ppy := 240.5%float;
     Intrinsics.fx := 615.25%float; Intrinsics.fy := 615.75%float;
     Intrinsics.coeffs := (0.125, -0.25, 0.5, 0.0625, 0.03125)%float |}.

Definition example_profile (e : stream_index_pair * stream_request)
  : stream_profile :=
  match rq_format e.2 with
  | RS2_FORMAT_ANY | RS2_FORMAT_MOTION_XYZ32F | RS2_FORMAT_6DOF =>
      motion_profile e.1
  | _ =>
      video_profile
        {| stream_type := e.1.1; stream_index := e.1.2;
           get_intrinsics := example_intrinsics (rq_width e.2) (rq_height e.2) |}
  end.

Definition example_can_resolve (cfg : config) : bool :=
  forallb (λ e, example_supported e.2) (map_to_list cfg).

Definition example_platform (overrides : list (string * ParameterValue))
  : Platform :=
  {| can_resolve := example_can_resolve;
     resolve := λ cfg, if example_can_resolve cfg
                       then Some (example_profile <$> map_to_list cfg)
                       else None;
     parameter_overrides := list_to_map overrides;
     use_intra_process_comms := false |}.

(** The state a function leaves behind, whichever way it ends. *)
Definition state_after {A} (o : outcome A) : option RealSenseBase :=
  match o with
  | Returns _ st | Throws _ st => Some st
  | Undefined _ => None
  end.

(** What a function returned, when it did. *)
Definition returned {A} (o : outcome A) : option A :=
  match o with
  | Returns a _ => Some a
  | Throws _ _ | Undefined _ => None
  end.

(** Running a function from the state an earlier one returned. *)
Definition and_then {A} (st : option RealSenseBase) (m : M A) : outcome A :=
  match st with
  | Some st => m st
  | None => Undefined indeterminate_int
  end.


(** ** Runs of the object *)

(** The calls a user of the class can make. *)
Inductive operation :=
| call_setupStream (stream : stream_index_pair)
| call_startPipeline
| call_publishImageTopic (frame : video_frame) (time : Z)
| call_updateVideoStreamCalibData (video_profile : video_stream_profile)
| call_toggleStream (stream : stream_index_pair) (param : ParameterValue)
| call_changeResolution (stream : stream_index_pair) (param : ParameterValue)
| call_changeFPS (stream : stream_index_pair) (param : ParameterValue).

Definition perform (cat : Catalog) (env : Platform) (op : operation)
  (st : RealSenseBase) : option RealSenseBase :=
  match op with
  | call_setupStream s => state_after (setupStream cat env s st)
  | call_startPipeline => state_after (startPipeline cat env st)
  | call_publishImageTopic f t => state_after (publishImageTopic cat env f t st)
  | call_updateVideoStreamCalibData p =>
      state_after (updateVideoStreamCalibData cat p st)
  | call_toggleStream s p => state_after (toggleStream cat s p st)
  | call_changeResolution s p => state_after (changeResolution cat env s p st)
  | call_changeFPS s p => state_after (changeFPS cat env s p st)
  end.

Fixpoint perform_all (cat : Catalog) (env : Platform) (ops : list operation)
  (st : RealSenseBase) : option RealSenseBase :=
  match ops with
  | [] => Some st
  | op :: ops' =>
      match perform cat env op st with
      | Some st' => perform_all cat env ops' st'
      | None => None
      end
  end.

(** A state the object can be in: some sequence of calls, each of which
    returned or threw, leads to it from the constructed object. *)
Definition reachable (cat : Catalog) (env : Platform) (st : RealSenseBase)
  : Prop :=
  ∃ ops, perform_all cat env ops constructed = Some st.

(** ** Invariants *)

(** The SDK configuration has an entry for exactly the enabled streams. *)
Definition cfg_mirrors_enable (st : RealSenseBase) : Prop :=
  ∀ s, cfg_has st s = enabled st s.

(** The arrays of a calibration record have their sizes, and the entries
    of [k] that [updateVideoStreamCalibData] never writes are zero. *)
Definition calibration_arrays_ok (m : CameraInfo.t) : Prop :=
  length (CameraInfo.k m) = 9%nat ∧
  length (CameraInfo.r m) = 9%nat ∧
  length (CameraInfo.p m) = 12%nat ∧
  CameraInfo.k m !! 1%nat = Some 0%float ∧
  CameraInfo.k m !! 3%nat = Some 0%float ∧
  CameraInfo.k m !! 6%nat = Some 0%float ∧
  CameraInfo.k m !! 7%nat = Some 0%float.

Definition calibration_cache_ok (st : RealSenseBase) : Prop :=
  ∀ s, calibration_arrays_ok (camera_info_of st s).

(** [P] holds of the state a call leaves, however it ends. *)
Definition outcome_ok {A} (P : RealSenseBase → Prop) (o : outcome A) : Prop :=
  match o with
  | Returns _ st' | Throws _ st' => P st'
  | Undefined _ => True
  end.

(** [m] keeps [P], also when it throws. *)
Definition preserves {A} (P : RealSenseBase → Prop) (m : M A) : Prop :=
  ∀ st, P st → outcome_ok P (m st).

(** ** The calibration the design document asks for *)

(** [K = [[fx,0,ppx],[0,fy,ppy],[0,0,1]]], row-major. *)
Definition intrinsic_k (i : Intrinsics.t) : list float :=
  [Intrinsics.fx i; 0; Intrinsics.ppx i;
   0; Intrinsics.fy i; Intrinsics.ppy i;
   0; 0; 1]%float.

(** [P = [[fx,0,ppx,0],[0,fy,ppy,0],[0,0,1,0]]], row-major. *)
Definition intrinsic_p (i : Intrinsics.t) : list float :=
  [Intrinsics.fx i; 0; Intrinsics.ppx i; 0;
   0; Intrinsics.fy i; Intrinsics.ppy i; 0;
   0; 0; 1; 0]%float.

(** The 3x3 identity. *)
Definition identity_r : list float := [1; 0; 0; 0; 1; 0; 0; 0; 1]%float.

Definition intrinsic_d (i : Intrinsics.t) : list float :=
  [Intrinsics.coeff i 0; Intrinsics.coeff i 1; Intrinsics.coeff i 2;
   Intrinsics.coeff i 3; Intrinsics.coeff i 4].

(** The record of a stream once calibrated from [i]; the stamp is whatever
    the record had. *)
Definition calibrated (frame_id : string) (i : Intrinsics.t)
  (before : CameraInfo.t) : CameraInfo.t :=
  {| CameraInfo.header :=
       {| Header.frame_id := frame_id;
          Header.stamp := Header.stamp (CameraInfo.header before) |};
     CameraInfo.height := to_uint32 (Intrinsics.height i);
     CameraInfo.width := to_uint32 (Intrinsics.width i);
     CameraInfo.distortion_model := "plumb_bob";
     CameraInfo.d := intrinsic_d i;
     CameraInfo.k := intrinsic_k i;
     CameraInfo.r := identity_r;
     CameraInfo.p := intrinsic_p i |}.

(** [m], started where the record of stream [s] is [ci] and the enable
    flags read [en], returns [a] and leaves the record as [ci'] and the
    flags as they read before. *)
Definition entry_run (s : stream_index_pair) (en : stream_index_pair → bool)
  {A} (m : M A) (ci : CameraInfo.t) (a : A) (ci' : CameraInfo.t) : Prop :=
  ∀ st, camera_info_of st s = ci → (∀ x, enabled st x = en x) →
    ∃ st', m st = Returns a st' ∧ camera_info_of st' s = ci' ∧
           (∀ x, enabled st' x = en x).

(** ** Scenarios on the concrete node *)

Definition color : stream_index_pair := (RS2_STREAM_COLOR, 0%nat).
Definition depth : stream_index_pair := (RS2_STREAM_DEPTH, 0%nat).

(** Nothing supplied from outside: every stream is declared disabled. *)
Definition all_disabled : Platform := example_platform [].

(** [Color0.enabled] supplied as [true]. *)
Definition color_enabled : Platform :=
  example_platform [("Color0.enabled", PARAMETER_BOOL true)].

(** The color stream set up enabled and the pipeline started: streaming
    640x480 at 30 frames per second. *)
Definition color_streaming : option RealSenseBase :=
  perform_all example_catalog color_enabled
    [call_setupStream color; call_startPipeline] constructed.

(** The color stream set up, left disabled. *)
Definition color_idle : option RealSenseBase :=
  perform_all example_catalog all_disabled [call_setupStream color] constructed.

(** The state of [color_streaming]. *)
Definition streaming : RealSenseBase := default constructed color_streaming.

(** The state a call leaves from [st]. *)
Definition state_of {A} (m : M A) (st : RealSenseBase) : RealSenseBase :=
  default st (state_after (m st)).

Definition request (w h : Z) (f : rs2_format) (fps : Z) : stream_request :=
  {| rq_width := w; rq_height := h; rq_format := f; rq_fps := fps |}.

(** Scenario 3 of the design document: an unsupported resolution asked of
    the streaming color stream. *)
Definition reject_bad_resolution : outcome Result :=
  and_then color_streaming
    (changeResolution example_catalog color_enabled color
       (PARAMETER_INTEGER_ARRAY [99999; 99999])).

(** A supported resolution asked of the streaming color stream. *)
Definition change_to_720p : outcome Result :=
  and_then color_streaming
    (changeResolution example_catalog color_enabled color
       (PARAMETER_INTEGER_ARRAY [1280; 720])).

(** Scenario 4: 15 frames per second asked of the streaming color stream. *)
Definition change_to_15fps : outcome Result :=
  and_then color_streaming
    (changeFPS example_catalog color_enabled color (PARAMETER_INTEGER 15)).

(** The default resolution asked of the color stream while it is disabled. *)
Definition change_while_disabled : outcome Result :=
  and_then color_idle
    (changeResolution example_catalog all_disabled color
       (PARAMETER_INTEGER_ARRAY [640; 480])).

(** A width of 2^32 + 640 asked of the streaming color stream. *)
Definition change_to_wide_value : outcome Result :=
  and_then color_streaming
    (changeResolution example_catalog color_enabled color
       (PARAMETER_INTEGER_ARRAY [4294967936; 480])).

(** A depth profile as the example device resolves it. *)
Definition depth_profile : video_stream_profile :=
  {| stream_type := RS2_STREAM_DEPTH; stream_index := 0;
     get_intrinsics := example_intrinsics 640 480 |}.

(** [Depth0.enabled] and [Color0.enabled] both supplied as [true]. *)
Definition depth_and_color_enabled : Platform :=
  example_platform [("Depth0.enabled", PARAMETER_BOOL true);
                    ("Color0.enabled", PARAMETER_BOOL true)].

(** Depth and color set up, both enabled. *)
Definition depth_and_color : RealSenseBase :=
  default constructed
    (perform_all example_catalog depth_and_color_enabled
       [call_setupStream depth; call_setupStream color] constructed).

(** A color frame of two pixels. *)
Definition color_frame : video_frame :=
  {| get_profile := color; get_width := 2; get_height := 1;
     get_data := [1; 2; 3; 4; 5; 6] |}.


(** The state of [color_idle]. *)
Definition idle : RealSenseBase := default constructed color_idle.

(** A gyro profile: a stream without an optical frame in the catalog. *)
Definition gyro_profile : video_stream_profile :=
  {| stream_type := RS2_STREAM_GYRO; stream_index := 0;
     get_intrinsics := example_intrinsics 0 0 |}.

(** [Color0.resolution] supplied with one number only. *)
Definition short_resolution : Platform :=
  example_platform [("Color0.resolution", PARAMETER_INTEGER_ARRAY [640])].

(** The profile whose calibration a stream is left with when the
    profiles of [l] are calibrated in order: the last video profile of
    the stream. *)
Fixpoint last_video_profile (s : stream_index_pair) (l : list stream_profile)
  : option video_stream_profile :=
  match l with
  | [] => None
  | p :: l' =>
      match last_video_profile s l' with
      | Some vp => Some vp
      | None =>
          match p with
          | video_profile vp =>
              if decide ((stream_type vp, stream_index vp) = s)
              then Some vp else None
          | motion_profile _ => None
          end
      end
  end.

(** The color stream set up enabled, the pipeline not yet started. *)
Definition color_ready : RealSenseBase :=
  default constructed
    (perform_all example_catalog color_enabled [call_setupStream color]
       constructed).

(** * Properties *)

(** ** Basic facts *)

Lemma to_int_id z : int_range z → to_int z = z.
Proof.
  unfold int_range, to_int. intros Hz.
  rewrite Z.mod_small by lia. lia.
Qed.

Lemma map_subscript_default `{Countable K} {V} (dflt : V) (key k' : K)
  (m : gmap K V) :
  default dflt (map_subscript dflt key m !! k') = default dflt (m !! k').
Proof.
  unfold map_subscript. destruct (m !! key) eqn:E; [done|].
  destruct (decide (key = k')) as [->|Hne].
  - by rewrite lookup_insert_eq, E.
  - by rewrite lookup_insert_ne.
Qed.

Lemma map_insert_is_Some `{Countable K} {V} (key : K) (v : V) (m : gmap K V) :
  is_Some (map_insert key v m !! key).
Proof.
  unfold map_insert. destruct (m !! key) eqn:E.
  - by rewrite E.
  - by rewrite lookup_insert_eq.
Qed.

(** Running a member function on a symbolic state. *)
Ltac mrun :=
  repeat first
    [ progress unfold bind, ret, modify, get, throw, when, call_, set_enable,
        enable_at, stream_info_at, enabled, stream_info, cfg_has,
        pipeline_start_cfg, update_stream_info, undefined_behaviour, subscript
    | progress simpl ].

(** ** The reconfiguration handlers *)

Section Handlers.
Variable cat : Catalog.
Variable env : Platform.

(** C8. A parameter of the wrong type is turned down before anything is
    touched: [toggleStream] answers "Type should be boolean.",
    [changeResolution] "Type should be integer array." and [changeFPS]
    "Type should be integer.", each with [successful = false] and the
    object (enable map, stream info, SDK configuration, pipeline calls and
    all the rest) exactly as it was. *)
Theorem type_mismatch_rejected (stream : stream_index_pair)
  (param : ParameterValue) (st : RealSenseBase) :
  (get_type param ≠ ParameterType.PARAMETER_BOOL →
   toggleStream cat stream param st =
   Returns {| successful := false; reason := "Type should be boolean." |} st) ∧
  (get_type param ≠ ParameterType.PARAMETER_INTEGER_ARRAY →
   changeResolution cat env stream param st =
   Returns {| successful := false; reason := "Type should be integer array." |} st) ∧
  (get_type param ≠ ParameterType.PARAMETER_INTEGER →
   changeFPS cat env stream param st =
   Returns {| successful := false; reason := "Type should be integer." |} st).
Proof.
  repeat split; intros Hty.
  - unfold toggleStream. by rewrite bool_decide_true.
  - unfold changeResolution. by rewrite bool_decide_true.
  - unfold changeFPS. by rewrite bool_decide_true.
Qed.

(** C7. [toggleStream] asked for the value the stream already has answers
    [successful = false] with "Parameter is equal to the previous value.
    Do nothing."; every stream reads enabled or disabled as before (the
    map itself gains at most the entry [stream ↦ false] that reading
    [enable_[stream]] creates), and the SDK configuration, the pipeline
    calls, the stream info and everything else are untouched. *)
Theorem toggleStream_same_value (stream : stream_index_pair) (v : bool)
  (st : RealSenseBase) :
  v = enabled st stream →
  ∃ st',
    toggleStream cat stream (PARAMETER_BOOL v) st =
    Returns {| successful := false;
               reason := "Parameter is equal to the previous value. Do nothing." |}
            st' ∧
    (∀ s, enabled st' s = enabled st s) ∧
    st' = with_enable (map_subscript false stream) st ∧
    cfg_ st' = cfg_ st ∧
    calls st' = calls st ∧
    stream_info_ st' = stream_info_ st.
Proof.
  intros ->. unfold toggleStream.
  rewrite bool_decide_false by (simpl; congruence).
  destruct (enabled st stream) eqn:E; unfold enabled in E; mrun;
    rewrite ?E; mrun;
    (eexists; split; [reflexivity|]); repeat split; try done;
    intros s; apply map_subscript_default.
Qed.

(** C4 (as amended). After [changeResolution(s, [w, h])] has returned
    [successful = true], [stream_info_[s]] holds [static_cast<int>(w)] and
    [static_cast<int>(h)], which are [w] and [h] whenever these fit a
    32-bit [int], whether or not [s] was enabled; and the pipeline was
    stopped and started again, with the configuration as the call leaves
    it, exactly when [s] was enabled at the time of the call. *)
Theorem changeResolution_commits (stream : stream_index_pair) (w h : Z)
  (rest : list Z) (st : RealSenseBase) (r : Result) (st' : RealSenseBase) :
  changeResolution cat env stream (PARAMETER_INTEGER_ARRAY (w :: h :: rest)) st
    = Returns r st' →
  successful r = true →
  (∃ info, stream_info_ st' !! stream = Some info ∧
     vs_width info = to_int w ∧ vs_height info = to_int h ∧
     (int_range w → vs_width info = w) ∧ (int_range h → vs_height info = h)) ∧
  calls st' = calls st ++
    (if enabled st stream
     then [pipeline_stop; pipeline_start (cfg_ st') publishTopicsCallback]
     else []).
Proof.
  unfold changeResolution.
  rewrite bool_decide_false by (simpl; congruence).
  mrun. unfold at_.
  destruct (STREAM_FORMAT cat !! stream.1) as [fmt|]; mrun; [|done].
  destruct (can_resolve env _); mrun.
  2:{ intros [= <- <-]. done. }
  destruct (default false (enable_ st !! stream)) eqn:E; mrun;
    intros [= <- <-] _; simpl;
    (split; [|by rewrite <- ?app_assoc, ?app_nil_r]);
    rewrite lookup_insert_eq; eexists; (split; [reflexivity|]); simpl;
    rewrite ?lookup_insert_eq; simpl; auto using to_int_id.
Qed.

(** A resolution the device cannot stream: the answer is "Unsupported
    resolution.", stream info, enable map and pipeline calls stay, and the
    configuration keeps the proposal. *)
Lemma changeResolution_rejected (stream : stream_index_pair) (w h : Z)
  (rest : list Z) (st : RealSenseBase) (r : Result) (st' : RealSenseBase) :
  changeResolution cat env stream (PARAMETER_INTEGER_ARRAY (w :: h :: rest)) st
    = Returns r st' →
  successful r = false →
  reason r = "Unsupported resolution." ∧
  (∀ s, stream_info cat st' s = stream_info cat st s) ∧
  enable_ st' = enable_ st ∧
  calls st' = calls st ∧
  ∃ format,
    STREAM_FORMAT cat !! stream.1 = Some format ∧
    cfg_ st' = <[stream := {| rq_width := to_int w; rq_height := to_int h;
                              rq_format := format;
                              rq_fps := vs_fps (stream_info cat st stream) |}]>
                 (cfg_ st).
Proof.
  unfold changeResolution.
  rewrite bool_decide_false by (simpl; congruence).
  mrun. unfold at_.
  destruct (STREAM_FORMAT cat !! stream.1) as [fmt|]; mrun; [|done].
  destruct (can_resolve env _); mrun.
  - destruct (default false (enable_ st !! stream)); mrun; by intros [= <- <-].
  - intros [= <- <-] _. simpl. repeat split; eauto.
    intros s. apply map_subscript_default.
Qed.

(** The same for a frame rate the device cannot stream. *)
Lemma changeFPS_rejected (stream : stream_index_pair) (fps : Z)
  (st : RealSenseBase) (r : Result) (st' : RealSenseBase) :
  changeFPS cat env stream (PARAMETER_INTEGER fps) st = Returns r st' →
  successful r = false →
  reason r = "Unsupported configuration." ∧
  (∀ s, stream_info cat st' s = stream_info cat st s) ∧
  enable_ st' = enable_ st ∧
  calls st' = calls st ∧
  ∃ format,
    STREAM_FORMAT cat !! stream.1 = Some format ∧
    cfg_ st' = <[stream := {| rq_width := vs_width (stream_info cat st stream);
                              rq_height := vs_height (stream_info cat st stream);
                              rq_format := format;
                              rq_fps := to_int fps |}]>
                 (cfg_ st).
Proof.
  unfold changeFPS.
  rewrite bool_decide_false by (simpl; congruence).
  mrun. unfold at_.
  destruct (STREAM_FORMAT cat !! stream.1) as [fmt|]; mrun; [|done].
  rewrite !map_subscript_default.
  destruct (can_resolve env _); mrun.
  - destruct (default false (enable_ st !! stream)); mrun; by intros [= <- <-].
  - intros [= <- <-] _. simpl. repeat split; eauto.
    intros s. by rewrite !map_subscript_default.
Qed.

(** Enabling a stream restarts the pipeline with the settling delay:
    the stream was disabled and is enabled after the call, the
    configuration asks for it (any profile for ACCEL, GYRO and POSE, else
    the size and rate of the stream info in the format of the catalog),
    and the calls made are stop, 200 ms of sleep, start with that
    configuration. *)
Lemma toggleStream_enable_restart (stream : stream_index_pair)
  (st : RealSenseBase) (r : Result) (st' : RealSenseBase) :
  toggleStream cat stream (PARAMETER_BOOL true) st = Returns r st' →
  successful r = true →
  enabled st stream = false ∧ enabled st' stream = true ∧
  (∃ rq, cfg_ st' = <[stream := rq]> (cfg_ st) ∧
     if stream_eqb stream (ACCEL cat) || stream_eqb stream (GYRO cat) ||
        stream_eqb stream (POSE cat)
     then rq = any_request
     else ∃ format,
            STREAM_FORMAT cat !! stream.1 = Some format ∧
            rq = {| rq_width := vs_width (stream_info cat st stream);
                    rq_height := vs_height (stream_info cat st stream);
                    rq_format := format;
                    rq_fps := vs_fps (stream_info cat st stream) |}) ∧
  calls st' = calls st ++
    [pipeline_stop; sleep_for 200;
     pipeline_start (cfg_ st') publishTopicsCallback].
Proof.
  unfold toggleStream.
  rewrite bool_decide_false by (simpl; congruence).
  mrun. destruct (default false (enable_ st !! stream)) eqn:E; mrun.
  { by intros [= <- <-]. }
  unfold log_stream_name, at_.
  destruct (stream_eqb stream (ACCEL cat) || stream_eqb stream (GYRO cat) ||
            stream_eqb stream (POSE cat)); mrun.
  - destruct (STREAM_NAME cat !! stream.1); mrun; [|done].
    intros [= <- <-] _. simpl. rewrite lookup_insert_eq.
    rewrite <- !app_assoc. simpl. eauto 10.
  - destruct (STREAM_FORMAT cat !! stream.1); mrun; [|done].
    destruct (STREAM_NAME cat !! stream.1); mrun; [|done].
    intros [= <- <-] _. simpl. rewrite lookup_insert_eq.
    rewrite <- !app_assoc, !map_subscript_default. simpl. eauto 10.
Qed.

(** Disabling an enabled stream takes it out of the configuration and
    clears its flag, and makes no call on the pipeline: a running
    pipeline is left running as it was started. *)
Lemma toggleStream_disable_no_restart (stream : stream_index_pair)
  (st : RealSenseBase) (name : string) :
  enabled st stream = true →
  STREAM_NAME cat !! stream.1 = Some name →
  ∃ st',
    toggleStream cat stream (PARAMETER_BOOL false) st =
      Returns {| successful := true; reason := "" |} st' ∧
    cfg_ st' = delete stream (cfg_ st) ∧
    enable_ st' = <[stream := false]> (enable_ st) ∧
    calls st' = calls st ∧
    stream_info_ st' = stream_info_ st.
Proof.
  intros Hen Hname. unfold toggleStream.
  rewrite bool_decide_false by (simpl; congruence).
  unfold enabled in Hen. mrun. rewrite Hen. mrun.
  unfold log_stream_name, at_. rewrite Hname. mrun.
  eexists. split; [reflexivity|]. simpl. repeat split.
  unfold map_subscript. destruct (enable_ st !! stream); [done|].
  by rewrite insert_insert_eq.
Qed.

(** Enabling a stream that is neither enabled nor configured and then
    disabling it: the second call succeeds as well, and the configuration
    and every enable flag read as before the first; what stays is the
    restart the first call made. *)
Lemma toggleStream_round_trip (stream : stream_index_pair)
  (st : RealSenseBase) (r1 : Result) (st1 : RealSenseBase) :
  cfg_ st !! stream = None →
  toggleStream cat stream (PARAMETER_BOOL true) st = Returns r1 st1 →
  successful r1 = true →
  ∃ st2,
    toggleStream cat stream (PARAMETER_BOOL false) st1 =
      Returns {| successful := true; reason := "" |} st2 ∧
    cfg_ st2 = cfg_ st ∧
    (∀ s, enabled st2 s = enabled st s) ∧
    (∀ s, stream_info cat st2 s = stream_info cat st s) ∧
    calls st2 = calls st ++
      [pipeline_stop; sleep_for 200;
       pipeline_start (cfg_ st1) publishTopicsCallback].
Proof.
  intros Hcfg. unfold toggleStream at 1.
  rewrite bool_decide_false by (simpl; congruence).
  mrun. destruct (default false (enable_ st !! stream)) eqn:E; mrun.
  { by intros [= <- <-]. }
  assert (∀ s, default false (<[stream := false]>
                 (<[stream := true]> (map_subscript false stream (enable_ st)))
                 !! s) = default false (enable_ st !! s)) as Hback.
  { intros s. destruct (decide (stream = s)) as [->|Hne].
    - by rewrite lookup_insert_eq, E.
    - by rewrite !lookup_insert_ne, map_subscript_default. }
  unfold log_stream_name, at_.
  destruct (stream_eqb stream (ACCEL cat) || stream_eqb stream (GYRO cat) ||
            stream_eqb stream (POSE cat)); mrun.
  - destruct (STREAM_NAME cat !! stream.1) as [nm|] eqn:Hname; mrun; [|done].
    intros [= <- <-] _. unfold toggleStream.
    rewrite bool_decide_false by (simpl; congruence).
    mrun. rewrite lookup_insert_eq. mrun.
    unfold log_stream_name, at_. rewrite Hname. mrun.
    eexists. split; [reflexivity|]. simpl.
    unfold disable_stream, enable_stream.
    rewrite delete_insert_eq, delete_id by done.
    rewrite <- !app_assoc. simpl. repeat split; try done.
    intros s. unfold map_subscript at 1. rewrite lookup_insert_eq. apply Hback.
  - destruct (STREAM_FORMAT cat !! stream.1) as [fmt|]; mrun; [|done].
    destruct (STREAM_NAME cat !! stream.1) as [nm|] eqn:Hname; mrun; [|done].
    intros [= <- <-] _. unfold toggleStream.
    rewrite bool_decide_false by (simpl; congruence).
    mrun. rewrite lookup_insert_eq. mrun.
    unfold log_stream_name, at_. rewrite Hname. mrun.
    eexists. split; [reflexivity|]. simpl.
    unfold disable_stream, enable_stream.
    rewrite delete_insert_eq, delete_id by done.
    rewrite <- !app_assoc. simpl. repeat split; try done.
    + intros s. unfold map_subscript at 1. rewrite lookup_insert_eq.
      apply Hback.
    + intros s. by rewrite !map_subscript_default.
Qed.

(** A frame rate the device accepts is stored narrowed to [int], and the
    pipeline is stopped and started again, without delay, exactly when
    the stream is enabled. *)
Lemma changeFPS_commits (stream : stream_index_pair) (fps : Z)
  (st : RealSenseBase) (r : Result) (st' : RealSenseBase) :
  changeFPS cat env stream (PARAMETER_INTEGER fps) st = Returns r st' →
  successful r = true →
  stream_info_ st' !! stream
    = Some (set_fps (to_int fps) (stream_info cat st stream)) ∧
  (int_range fps → vs_fps (stream_info cat st' stream) = fps) ∧
  calls st' = calls st ++
    (if enabled st stream
     then [pipeline_stop; pipeline_start (cfg_ st') publishTopicsCallback]
     else []).
Proof.
  unfold changeFPS.
  rewrite bool_decide_false by (simpl; congruence).
  mrun. unfold at_.
  destruct (STREAM_FORMAT cat !! stream.1) as [fmt|]; mrun; [|done].
  rewrite !map_subscript_default.
  destruct (can_resolve env _); mrun.
  2:{ intros [= <- <-]. done. }
  destruct (default false (enable_ st !! stream)) eqn:E; mrun;
    intros [= <- <-] _; simpl; rewrite !map_subscript_default;
    rewrite !lookup_insert_eq; simpl;
    (split; [done|]); (split; [apply to_int_id|]);
    by rewrite <- ?app_assoc, ?app_nil_r.
Qed.

(** An integer array of fewer than two elements passes the type check of
    [changeResolution], and the call reads past its end: [res[0]] of an
    empty array, [res[1]] of a one-element one. *)
Lemma changeResolution_short_array (stream : stream_index_pair)
  (res : list Z) (st : RealSenseBase) :
  (length res < 2)%nat →
  changeResolution cat env stream (PARAMETER_INTEGER_ARRAY res) st
    = Undefined (vector_subscript (length res) (length res)).
Proof.
  intros Hlen. unfold changeResolution.
  rewrite bool_decide_false by (simpl; congruence).
  destruct res as [|w [|h rest]]; [done|done|simpl in Hlen; lia].
Qed.

End Handlers.

(** ** The handlers on the concrete node *)

(** Evaluates each part of a conjunction of closed equations. *)
Ltac evaluate :=
  repeat lazymatch goal with |- _ ∧ _ => split end;
  vm_compute; reflexivity.

(** C8, on the concrete node: a string where each handler expects its own
    type. *)
Lemma type_mismatch_rejected_witness :
  toggleStream example_catalog color (PARAMETER_STRING "on") constructed =
  Returns {| successful := false; reason := "Type should be boolean." |}
          constructed ∧
  changeResolution example_catalog all_disabled color (PARAMETER_STRING "on")
    constructed =
  Returns {| successful := false; reason := "Type should be integer array." |}
          constructed ∧
  changeFPS example_catalog all_disabled color (PARAMETER_STRING "on")
    constructed =
  Returns {| successful := false; reason := "Type should be integer." |}
          constructed.
Proof.
  destruct (type_mismatch_rejected example_catalog all_disabled color
              (PARAMETER_STRING "on") constructed) as (H1 & H2 & H3).
  split; [apply H1; simpl; discriminate|].
  split; [apply H2; simpl; discriminate|apply H3; simpl; discriminate].
Defined.

(** C7, on the concrete node: disabling the color stream of the freshly
    constructed object, where it reads disabled. *)
Lemma toggleStream_same_value_witness :
  ∃ st',
    toggleStream example_catalog color (PARAMETER_BOOL false) constructed =
    Returns {| successful := false;
               reason := "Parameter is equal to the previous value. Do nothing." |}
            st' ∧
    (∀ s, enabled st' s = enabled constructed s) ∧
    st' = with_enable (map_subscript false color) constructed ∧
    cfg_ st' = cfg_ constructed ∧
    calls st' = calls constructed ∧
    stream_info_ st' = stream_info_ constructed.
Proof.
  apply (toggleStream_same_value example_catalog color false constructed).
  vm_compute. reflexivity.
Defined.

(** C4, on the concrete node: 1280x720 asked of the streaming color stream
    is committed and the pipeline restarted. *)
Lemma changeResolution_commits_witness :
  (∃ info,
     stream_info_ (state_of (changeResolution example_catalog color_enabled
                               color (PARAMETER_INTEGER_ARRAY [1280; 720]))
                            streaming) !! color = Some info ∧
     vs_width info = to_int 1280 ∧ vs_height info = to_int 720 ∧
     (int_range 1280 → vs_width info = 1280) ∧
     (int_range 720 → vs_height info = 720)) ∧
  calls (state_of (changeResolution example_catalog color_enabled color
                     (PARAMETER_INTEGER_ARRAY [1280; 720])) streaming) =
  calls streaming ++
    (if enabled streaming color
     then [pipeline_stop;
           pipeline_start
             (cfg_ (state_of (changeResolution example_catalog color_enabled
                                color (PARAMETER_INTEGER_ARRAY [1280; 720]))
                             streaming))
             publishTopicsCallback]
     else []).
Proof.
  apply (changeResolution_commits example_catalog color_enabled color
           1280 720 [] streaming {| successful := true; reason := "" |}
           (state_of (changeResolution example_catalog color_enabled color
                        (PARAMETER_INTEGER_ARRAY [1280; 720])) streaming)).
  - vm_compute. reflexivity.
  - reflexivity.
Defined.

(** C4, as first stated, fails on a width outside the range of [int]:
    2^32 + 640 is accepted, and the stream info then holds 640. *)
Lemma changeResolution_truncates_wide_value :
  returned change_to_wide_value = Some {| successful := true; reason := "" |} ∧
  (st ← state_after change_to_wide_value;
   vs_width <$> stream_info_ st !! color) = Some 640 ∧
  640 ≠ 4294967936.
Proof.
  split; [vm_compute; reflexivity|].
  split; [vm_compute; reflexivity|lia].
Qed.

(** C1. The default resolution asked of the color stream while it is
    disabled: the call succeeds, and leaves the stream in the SDK
    configuration with its enable flag still false. *)
Theorem changeResolution_configures_disabled_stream :
  (st ← color_idle; Some (cfg_has st color, enabled st color))
    = Some (false, false) ∧
  returned change_while_disabled = Some {| successful := true; reason := "" |} ∧
  (st ← state_after change_while_disabled;
   Some (cfg_has st color, enabled st color)) = Some (true, false).
Proof. evaluate. Qed.

(** C2. An unsupported resolution asked of the streaming color stream:
    the call answers "Unsupported resolution.", stream info, enable map
    and pipeline calls are as before, and the SDK configuration holds the
    rejected 99999x99999 in place of 640x480. *)
Theorem rejected_resolution_stays_in_cfg :
  returned reject_bad_resolution =
    Some {| successful := false; reason := "Unsupported resolution." |} ∧
  (st ← color_streaming; cfg_ st !! color)
    = Some (request 640 480 RS2_FORMAT_RGB8 30) ∧
  (st ← state_after reject_bad_resolution; cfg_ st !! color)
    = Some (request 99999 99999 RS2_FORMAT_RGB8 30) ∧
  (stream_info_ <$> state_after reject_bad_resolution)
    = (stream_info_ <$> color_streaming) ∧
  (enable_ <$> state_after reject_bad_resolution)
    = (enable_ <$> color_streaming) ∧
  (calls <$> state_after reject_bad_resolution) = (calls <$> color_streaming).
Proof. evaluate. Qed.

(** C3. A resolution or frame-rate change of the streaming color stream
    restarts the pipeline by a stop followed at once by the start: no
    settling delay is recorded between the two. *)
Theorem change_restart_has_no_settling_delay :
  (calls <$> color_streaming)
    = Some [pipeline_start {[ color := request 640 480 RS2_FORMAT_RGB8 30 ]}
              publishTopicsCallback] ∧
  (calls <$> state_after change_to_720p)
    = Some [pipeline_start {[ color := request 640 480 RS2_FORMAT_RGB8 30 ]}
              publishTopicsCallback;
            pipeline_stop;
            pipeline_start {[ color := request 1280 720 RS2_FORMAT_RGB8 30 ]}
              publishTopicsCallback] ∧
  (calls <$> state_after change_to_15fps)
    = Some [pipeline_start {[ color := request 640 480 RS2_FORMAT_RGB8 30 ]}
              publishTopicsCallback;
            pipeline_stop;
            pipeline_start {[ color := request 640 480 RS2_FORMAT_RGB8 15 ]}
              publishTopicsCallback].
Proof. evaluate. Qed.

(** ** What every call keeps *)

Section Preserves.
Context (P : RealSenseBase → Prop).

Lemma ok_bind {A B} (m : M A) (k : A → M B) st :
  outcome_ok P (m st) → (∀ a st', P st' → outcome_ok P (k a st')) →
  outcome_ok P (bind m k st).
Proof.
  intros Hm Hk. unfold bind.
  destruct (m st) as [a st'| |]; [by apply Hk|done|done].
Qed.

Lemma ok_bind_get {B} (k : RealSenseBase → M B) st :
  outcome_ok P (k st st) → outcome_ok P (bind get k st).
Proof. done. Qed.

Lemma ok_for {A} (l : list A) body st :
  P st → (∀ x st', P st' → outcome_ok P (body x st')) →
  outcome_ok P (for_ l body st).
Proof.
  intros H Hb. revert st H. induction l as [|x l IH]; intros st H; simpl.
  - done.
  - apply ok_bind; [by apply Hb|]. intros _ st' H'. by apply IH.
Qed.

Lemma ok_at `{Countable K} {V} name (table : gmap K V) key st :
  P st → outcome_ok P (at_ name table key st).
Proof. intros H0. unfold at_. by destruct (table !! key). Qed.

Lemma ok_subscript v i st : P st → outcome_ok P (subscript v i st).
Proof. intros H0. unfold subscript. by destruct (v !! i). Qed.
End Preserves.

(** One step through the body of a member function. *)
Ltac ok_step :=
  lazymatch goal with
  | |- preserves _ _ => intros ? ?
  | |- outcome_ok _ (bind get _ _) => apply ok_bind_get; cbv beta
  | |- outcome_ok _ (bind _ _ _) => apply ok_bind; [|intros ? ? ?]
  | |- outcome_ok _ (ret _ _) => simpl
  | |- outcome_ok _ (throw _ _) => simpl
  | |- outcome_ok _ (undefined_behaviour _ _) => exact I
  | |- outcome_ok _ (get _) => simpl
  | |- outcome_ok _ (modify _ _) => simpl
  | |- outcome_ok _ (when ?c _ _) => destruct c; unfold when
  | |- outcome_ok _ (for_ _ _ _) => apply ok_for; [|intros ? ? ?]
  | |- outcome_ok _ (at_ _ _ _ _) => apply ok_at
  | |- outcome_ok _ (subscript _ _ _) => apply ok_subscript
  | |- outcome_ok _ ((if ?b then _ else _) _) => destruct b
  | |- outcome_ok _ ((match ?x with _ => _ end) _) => destruct x
  | |- outcome_ok _ ((let _ := _ in _) _) => cbv zeta
  | |- outcome_ok _ (?f _ _ _ _ _ _ _) => unfold f
  | |- outcome_ok _ (?f _ _ _ _ _ _) => unfold f
  | |- outcome_ok _ (?f _ _ _ _ _) => unfold f
  | |- outcome_ok _ (?f _ _ _ _) => unfold f
  | |- outcome_ok _ (?f _ _ _) => unfold f
  | |- outcome_ok _ (?f _ _) => unfold f
  | |- outcome_ok _ (?f _) => unfold f
  end.

(** ** The calibration cache keeps its shape *)

Lemma arrays_ok_empty : calibration_arrays_ok CameraInfo.empty.
Proof. by repeat split. Qed.

Lemma cache_ok_constructed : calibration_cache_ok constructed.
Proof. intros s. apply arrays_ok_empty. Qed.

Lemma cache_ok_insert s m st :
  calibration_cache_ok st → calibration_arrays_ok m →
  calibration_cache_ok (with_camera_info (insert s m) st).
Proof.
  intros Hst Hm s'. unfold camera_info_of. simpl.
  destruct (decide (s = s')) as [->|Hne].
  - by rewrite lookup_insert_eq.
  - rewrite lookup_insert_ne by done. apply Hst.
Qed.

Lemma cache_ok_subscript s st :
  calibration_cache_ok st →
  calibration_cache_ok (with_camera_info (map_subscript CameraInfo.empty s) st).
Proof.
  intros Hst s'. unfold camera_info_of. simpl.
  rewrite map_subscript_default. apply Hst.
Qed.

Ltac arrays_ok :=
  match goal with
  | H : calibration_arrays_ok _ |- calibration_arrays_ok _ =>
      destruct H as (? & ? & ? & ? & ? & ? & ?);
      unfold calibration_arrays_ok; simpl;
      rewrite ?length_insert, ?list_lookup_insert_ne by lia; done
  end.

Ltac cache_ok :=
  match goal with
  | H : calibration_cache_ok ?st
    |- calibration_cache_ok (with_camera_info (map_subscript _ _) ?st) =>
      by apply cache_ok_subscript
  | H : calibration_cache_ok ?st
    |- calibration_cache_ok (with_camera_info (insert ?s _) ?st) =>
      apply cache_ok_insert; [done|]; specialize (H s); arrays_ok
  | H : calibration_cache_ok ?st |- calibration_cache_ok _ => exact H
  end.

Ltac cache_ok_run := repeat (first [cache_ok | ok_step]).

Section Cache.
Variable cat : Catalog.
Variable env : Platform.

Lemma updateVideoStreamCalibData_cache_ok vp :
  preserves calibration_cache_ok (updateVideoStreamCalibData cat vp).
Proof. cache_ok_run. Qed.

Lemma publishImageTopic_cache_ok f t :
  preserves calibration_cache_ok (publishImageTopic cat env f t).
Proof. cache_ok_run. Qed.

Lemma startPipeline_cache_ok :
  preserves calibration_cache_ok (startPipeline cat env).
Proof.
  unfold startPipeline.
  repeat (first [ cache_ok
                | by apply updateVideoStreamCalibData_cache_ok
                | ok_step ]).
Qed.

Lemma setupStream_cache_ok s :
  preserves calibration_cache_ok (setupStream cat env s).
Proof. cache_ok_run. Qed.

Lemma toggleStream_cache_ok s p :
  preserves calibration_cache_ok (toggleStream cat s p).
Proof. cache_ok_run. Qed.

Lemma changeResolution_cache_ok s p :
  preserves calibration_cache_ok (changeResolution cat env s p).
Proof. cache_ok_run. Qed.

Lemma changeFPS_cache_ok s p :
  preserves calibration_cache_ok (changeFPS cat env s p).
Proof. cache_ok_run. Qed.

Lemma state_after_ok {A} (P : RealSenseBase → Prop) (o : outcome A) st' :
  outcome_ok P o → state_after o = Some st' → P st'.
Proof. destruct o; simpl; intros H [= <-]; done. Qed.

Lemma perform_cache_ok op st st' :
  calibration_cache_ok st → perform cat env op st = Some st' →
  calibration_cache_ok st'.
Proof.
  intros Hst. destruct op; simpl; apply state_after_ok.
  - by apply setupStream_cache_ok.
  - by apply startPipeline_cache_ok.
  - by apply publishImageTopic_cache_ok.
  - by apply updateVideoStreamCalibData_cache_ok.
  - by apply toggleStream_cache_ok.
  - by apply changeResolution_cache_ok.
  - by apply changeFPS_cache_ok.
Qed.

Lemma perform_all_cache_ok ops st st' :
  calibration_cache_ok st → perform_all cat env ops st = Some st' →
  calibration_cache_ok st'.
Proof.
  revert st. induction ops as [|op ops IH]; simpl; intros st Hst.
  - by intros [= <-].
  - destruct (perform cat env op st) as [st1|] eqn:E; [|done].
    apply IH. by eapply perform_cache_ok.
Qed.

(** In every state the object can reach, every calibration record has
    arrays of the right sizes, with zeros where [K] is never written. *)
Lemma reachable_cache_ok st :
  reachable cat env st → calibration_cache_ok st.
Proof.
  intros [ops Hops]. eapply perform_all_cache_ok; [|exact Hops].
  apply cache_ok_constructed.
Qed.
End Cache.

(** ** One calibration record through a call *)

Lemma length_9 {A} (l : list A) :
  length l = 9%nat →
  ∃ a0 a1 a2 a3 a4 a5 a6 a7 a8, l = [a0; a1; a2; a3; a4; a5; a6; a7; a8].
Proof.
  intros H. do 9 (destruct l as [|? l]; [done|]). destruct l; [|done].
  eauto 10.
Qed.

Lemma length_12 {A} (l : list A) :
  length l = 12%nat →
  ∃ a0 a1 a2 a3 a4 a5 a6 a7 a8 a9 a10 a11,
    l = [a0; a1; a2; a3; a4; a5; a6; a7; a8; a9; a10; a11].
Proof.
  intros H. do 12 (destruct l as [|? l]; [done|]). destruct l; [|done].
  eauto 13.
Qed.

Section Entry.
Variable s : stream_index_pair.
Variable en : stream_index_pair → bool.

Lemma entry_bind {A B} (m : M A) (k : A → M B) ci a ci1 b ci2 :
  entry_run s en m ci a ci1 → entry_run s en (k a) ci1 b ci2 →
  entry_run s en (bind m k) ci b ci2.
Proof.
  intros Hm Hk st Hci Hen.
  destruct (Hm st Hci Hen) as (st1 & E1 & Hci1 & Hen1).
  destruct (Hk st1 Hci1 Hen1) as (st2 & E2 & Hci2 & Hen2).
  exists st2. unfold bind. by rewrite E1.
Qed.

Lemma entry_run_eq {A} (m : M A) ci a ci1 ci2 :
  entry_run s en m ci a ci1 → ci1 = ci2 → entry_run s en m ci a ci2.
Proof. by intros H <-. Qed.

Lemma entry_ret {A} (a : A) ci : entry_run s en (ret a) ci a ci.
Proof. intros st Hci Hen. by exists st. Qed.

Lemma entry_at `{Countable K} {V} name (table : gmap K V) key v ci :
  table !! key = Some v → entry_run s en (at_ name table key) ci v ci.
Proof. intros E st Hci Hen. exists st. unfold at_. by rewrite E. Qed.

Lemma entry_update f ci ci' :
  ci' = f ci → entry_run s en (update_camera_info s f) ci tt ci'.
Proof.
  intros -> st Hci Hen. eexists. split; [reflexivity|].
  unfold camera_info_of in *. simpl. rewrite lookup_insert_eq.
  split; [by subst|]. intros x. apply Hen.
Qed.

Lemma entry_camera_info_at ci : entry_run s en (camera_info_at s) ci ci ci.
Proof.
  intros st Hci Hen. eexists.
  split; [unfold camera_info_at, bind, get, modify, ret; by rewrite Hci|].
  unfold camera_info_of in *. simpl. rewrite map_subscript_default.
  split; [done|]. intros x. apply Hen.
Qed.

Lemma entry_put field with_field i v ci ci' :
  (i < length (field ci))%nat →
  ci' = with_field (λ a, <[i := v]> a) ci →
  entry_run s en (put_at field with_field s i v) ci tt ci'.
Proof.
  intros Hi ->. unfold put_at.
  eapply entry_bind; [apply entry_camera_info_at|].
  rewrite decide_True by done. by apply entry_update.
Qed.

Lemma entry_get field i v ci :
  field ci !! i = Some v → entry_run s en (get_at field s i) ci v ci.
Proof.
  intros Hi. unfold get_at.
  eapply entry_bind; [apply entry_camera_info_at|].
  rewrite Hi. apply entry_ret.
Qed.

Lemma entry_enable_at x ci : entry_run s en (enable_at x) ci (en x) ci.
Proof.
  intros st Hci Hen. eexists.
  split; [unfold enable_at, bind, get, modify, ret; by rewrite Hen|].
  split; [done|]. intros y. unfold enabled. simpl.
  rewrite map_subscript_default. apply Hen.
Qed.
End Entry.

Ltac entry_go :=
  lazymatch goal with
  | |- entry_run _ _ (bind _ _) _ _ _ =>
      eapply entry_bind; [entry_go | cbv beta; entry_go]
  | |- entry_run _ _ (ret _) _ _ _ => apply entry_ret
  | |- entry_run _ _ (at_ _ _ _) _ _ _ => apply entry_at; eassumption
  | |- entry_run _ _ (update_camera_info _ _) _ _ _ =>
      apply entry_update; reflexivity
  | |- entry_run _ _ (put_at _ _ _ _ _) _ _ _ =>
      apply entry_put; [simpl; lia | reflexivity]
  | |- entry_run _ _ (get_at _ _ _) _ _ _ => apply entry_get; reflexivity
  | |- entry_run _ _ (enable_at _) _ _ _ => apply entry_enable_at
  end.

Section Calibration.
Variable cat : Catalog.
Variable env : Platform.

(** Lines 142-183 leave the record as the intrinsics determine it. *)
Lemma fill_calibration_run vp en ci frame_id :
  calibration_arrays_ok ci →
  OPTICAL_FRAME_ID cat !! (stream_type vp, stream_index vp) = Some frame_id →
  entry_run (stream_type vp, stream_index vp) en (fill_calibration cat vp)
    ci tt (calibrated frame_id (get_intrinsics vp) ci).
Proof.
  intros Hok Hfid. unfold fill_calibration. cbv zeta.
  set (s := (stream_type vp, stream_index vp)) in *.
  destruct ci as [hd hh ww dm dd kk rr pp].
  destruct Hok as (Hk & Hr & Hp & H1 & H3 & H6 & H7). simpl in *.
  apply length_9 in Hk as (k0&k1&k2&k3&k4&k5&k6&k7&k8&->).
  apply length_9 in Hr as (r0&r1&r2&r3&r4&r5&r6&r7&r8&->).
  apply length_12 in Hp as (p0&p1&p2&p3&p4&p5&p6&p7&p8&p9&p10&p11&->).
  simpl in *. simplify_eq.
  destruct dd as [|? [|? [|? [|? [|? [|? ?]]]]]];
    (eapply entry_run_eq; [simpl for_; entry_go|reflexivity]).
Qed.

(** Lines 185-188 write two zeros into [P] when the stream is DEPTH and
    DEPTH and COLOR both read enabled, and nothing otherwise. *)
Lemma force_depth_translation_run s en ci :
  length (CameraInfo.p ci) = 12%nat →
  entry_run s en (force_depth_translation cat s) ci tt
    (if stream_eqb s (DEPTH cat) && en (DEPTH cat) && en (COLOR cat)
     then with_p (λ a, <[7%nat := 0%float]> (<[3%nat := 0%float]> a)) ci
     else ci).
Proof.
  intros Hp. unfold force_depth_translation.
  destruct (stream_eqb s (DEPTH cat)); simpl.
  - eapply entry_bind.
    { eapply entry_bind; [apply entry_enable_at|]. cbv beta.
      instantiate (1 := ci). instantiate (1 := en (DEPTH cat) && en (COLOR cat)).
      destruct (en (DEPTH cat)); simpl;
        [apply entry_enable_at|apply entry_ret]. }
    cbv beta. destruct (en (DEPTH cat)), (en (COLOR cat)); simpl;
      try apply entry_ret.
    eapply entry_run_eq.
    { eapply entry_bind;
        [apply entry_put; [lia|reflexivity]
        |apply entry_put; [simpl; rewrite length_insert; lia|reflexivity]]. }
    by destruct ci.
  - eapply entry_bind; [apply entry_ret|]. apply entry_ret.
Qed.

(** The whole function on one record. *)
Lemma updateVideoStreamCalibData_run vp en ci frame_id :
  calibration_arrays_ok ci →
  OPTICAL_FRAME_ID cat !! (stream_type vp, stream_index vp) = Some frame_id →
  entry_run (stream_type vp, stream_index vp) en
    (updateVideoStreamCalibData cat vp)
    ci tt (calibrated frame_id (get_intrinsics vp) ci).
Proof.
  intros Hok Hfid. unfold updateVideoStreamCalibData.
  eapply entry_bind; [by apply fill_calibration_run|].
  eapply entry_run_eq; [by apply force_depth_translation_run|].
  by destruct (_ && _ && _).
Qed.

(** C9. In every state the object can be in, for a video profile whose
    stream has an optical frame in the catalog,
    [updateVideoStreamCalibData] returns and leaves in [camera_info_]
    under the stream: [K = [[fx,0,ppx],[0,fy,ppy],[0,0,1]]] (row-major),
    [P = [[fx,0,ppx,0],[0,fy,ppy,0],[0,0,1,0]]], [R] the 3x3 identity,
    [distortion_model = "plumb_bob"], [d] the five coefficients
    [coeffs[0..4]], and [header.frame_id] the optical frame of the stream
    (with width and height those of the intrinsics). *)
Theorem updateVideoStreamCalibData_calibrates (vp : video_stream_profile)
  (st : RealSenseBase) (frame_id : string) :
  reachable cat env st →
  OPTICAL_FRAME_ID cat !! (stream_type vp, stream_index vp) = Some frame_id →
  ∃ st' info,
    updateVideoStreamCalibData cat vp st = Returns tt st' ∧
    camera_info_of st' (stream_type vp, stream_index vp) = info ∧
    CameraInfo.k info = intrinsic_k (get_intrinsics vp) ∧
    CameraInfo.p info = intrinsic_p (get_intrinsics vp) ∧
    CameraInfo.r info = identity_r ∧
    CameraInfo.distortion_model info = "plumb_bob" ∧
    CameraInfo.d info = intrinsic_d (get_intrinsics vp) ∧
    Header.frame_id (CameraInfo.header info) = frame_id ∧
    CameraInfo.width info = to_uint32 (Intrinsics.width (get_intrinsics vp)) ∧
    CameraInfo.height info = to_uint32 (Intrinsics.height (get_intrinsics vp)).
Proof.
  intros Hreach Hfid.
  pose proof (reachable_cache_ok cat env st Hreach
                (stream_type vp, stream_index vp)) as Hok.
  destruct (updateVideoStreamCalibData_run vp (enabled st) _ frame_id Hok Hfid
              st eq_refl (λ _, eq_refl)) as (st' & Hrun & Hci & _).
  exists st', (camera_info_of st' (stream_type vp, stream_index vp)).
  split; [done|]. split; [done|]. by rewrite Hci.
Qed.

(** C5. In every state the object can be in, [updateVideoStreamCalibData]
    for the DEPTH stream returns and leaves [P[3] = 0] and [P[7] = 0] when
    DEPTH and COLOR are both enabled; when DEPTH is enabled and COLOR is
    not, [P] is the projection lines 142-183 built from the intrinsics,
    untouched by lines 185-188, so [P[3]] and [P[7]] are the entries of
    that projection (whose translation terms are zero as well). *)
Theorem depth_translation_terms (vp : video_stream_profile)
  (st : RealSenseBase) (frame_id : string) :
  reachable cat env st →
  (stream_type vp, stream_index vp) = DEPTH cat →
  OPTICAL_FRAME_ID cat !! DEPTH cat = Some frame_id →
  ∃ raw st',
    fill_calibration cat vp st = Returns tt raw ∧
    updateVideoStreamCalibData cat vp st = Returns tt st' ∧
    (enabled st (DEPTH cat) = true → enabled st (COLOR cat) = true →
     CameraInfo.p (camera_info_of st' (DEPTH cat)) !! 3%nat = Some 0%float ∧
     CameraInfo.p (camera_info_of st' (DEPTH cat)) !! 7%nat = Some 0%float) ∧
    (enabled st (DEPTH cat) = true → enabled st (COLOR cat) = false →
     CameraInfo.p (camera_info_of st' (DEPTH cat)) =
       CameraInfo.p (camera_info_of raw (DEPTH cat)) ∧
     CameraInfo.p (camera_info_of raw (DEPTH cat)) =
       intrinsic_p (get_intrinsics vp)).
Proof.
  intros Hreach Hidx Hfid. rewrite <- Hidx in *.
  pose proof (reachable_cache_ok cat env st Hreach
                (stream_type vp, stream_index vp)) as Hok.
  destruct (fill_calibration_run vp (enabled st) _ frame_id Hok Hfid
              st eq_refl (λ _, eq_refl)) as (raw & Hraw & Hci & _).
  destruct (updateVideoStreamCalibData_run vp (enabled st) _ frame_id Hok Hfid
              st eq_refl (λ _, eq_refl)) as (st' & Hrun & Hci' & _).
  exists raw, st'. rewrite Hci, Hci'. by repeat split.
Qed.
End Calibration.

(** ** Publishing and set-up *)

Section Streams.
Variable cat : Catalog.
Variable env : Platform.

(** C6. For a video frame of a stream that has its catalog entries and its
    two publishers, [publishImageTopic] returns having handed exactly two
    messages to the middleware: the image on the stream's image publisher,
    with [header.frame_id] the optical frame of the stream and
    [header.stamp] the time given, and then the stream's camera info on
    its camera-info publisher, stamped with the same time. *)
Theorem publishImageTopic_headers (frame : video_frame) (time : Z)
  (st : RealSenseBase) (cv_format : Z) (encoding frame_id : string)
  (image_pub info_pub : Publisher) :
  CV_FORMAT cat !! (get_profile frame).1 = Some cv_format →
  MSG_ENCODING cat !! (get_profile frame).1 = Some encoding →
  OPTICAL_FRAME_ID cat !! get_profile frame = Some frame_id →
  image_pub_ st !! get_profile frame = Some image_pub →
  camera_info_pub_ st !! get_profile frame = Some info_pub →
  ∃ st' img info,
    publishImageTopic cat env frame time st = Returns tt st' ∧
    published st' =
      published st ++
      [(image_pub, if use_intra_process_comms env
                   then image_unique img else image_shared img);
       (info_pub, camera_info info)] ∧
    Header.frame_id (Image.header img) = frame_id ∧
    Header.stamp (Image.header img) = time ∧
    Header.stamp (CameraInfo.header info) = time ∧
    camera_info_of st' (get_profile frame) = info.
Proof.
  intros Hcv Henc Hfid Hip Hcp. unfold publishImageTopic, at_, publish.
  cbv zeta. rewrite Hcv, Henc, Hfid.
  destruct (use_intra_process_comms env); mrun; rewrite Hip; mrun;
    unfold update_camera_info, camera_info_at, camera_info_of; mrun;
    rewrite Hcp; mrun; rewrite lookup_insert_eq;
    eexists _, _, _; (split; [reflexivity|]); simpl;
    rewrite <- app_assoc, map_subscript_default, lookup_insert_eq; by simpl.
Qed.




End Streams.

(** ** Calibration, publishing and set-up on the concrete node *)

Lemma depth_and_color_reachable :
  reachable example_catalog depth_and_color_enabled depth_and_color.
Proof.
  exists [call_setupStream depth; call_setupStream color].
  vm_compute. reflexivity.
Qed.

(** C9, on the concrete node: the depth profile on the node with depth and
    color set up. *)
Lemma updateVideoStreamCalibData_calibrates_witness :
  ∃ st' info,
    updateVideoStreamCalibData example_catalog depth_profile depth_and_color
      = Returns tt st' ∧
    camera_info_of st' (stream_type depth_profile, stream_index depth_profile)
      = info ∧
    CameraInfo.k info = intrinsic_k (get_intrinsics depth_profile) ∧
    CameraInfo.p info = intrinsic_p (get_intrinsics depth_profile) ∧
    CameraInfo.r info = identity_r ∧
    CameraInfo.distortion_model info = "plumb_bob" ∧
    CameraInfo.d info = intrinsic_d (get_intrinsics depth_profile) ∧
    Header.frame_id (CameraInfo.header info) = "camera_depth_optical_frame" ∧
    CameraInfo.width info
      = to_uint32 (Intrinsics.width (get_intrinsics depth_profile)) ∧
    CameraInfo.height info
      = to_uint32 (Intrinsics.height (get_intrinsics depth_profile)).
Proof.
  apply (updateVideoStreamCalibData_calibrates example_catalog
           depth_and_color_enabled depth_profile depth_and_color
           "camera_depth_optical_frame").
  - apply depth_and_color_reachable.
  - vm_compute. reflexivity.
Defined.

(** C5, on the concrete node: depth and color both enabled. *)
Lemma depth_translation_terms_witness :
  enabled depth_and_color depth = true ∧
  enabled depth_and_color color = true ∧
  ∃ raw st',
    fill_calibration example_catalog depth_profile depth_and_color
      = Returns tt raw ∧
    updateVideoStreamCalibData example_catalog depth_profile depth_and_color
      = Returns tt st' ∧
    (enabled depth_and_color (DEPTH example_catalog) = true →
     enabled depth_and_color (COLOR example_catalog) = true →
     CameraInfo.p (camera_info_of st' (DEPTH example_catalog)) !! 3%nat
       = Some 0%float ∧
     CameraInfo.p (camera_info_of st' (DEPTH example_catalog)) !! 7%nat
       = Some 0%float) ∧
    (enabled depth_and_color (DEPTH example_catalog) = true →
     enabled depth_and_color (COLOR example_catalog) = false →
     CameraInfo.p (camera_info_of st' (DEPTH example_catalog)) =
       CameraInfo.p (camera_info_of raw (DEPTH example_catalog)) ∧
     CameraInfo.p (camera_info_of raw (DEPTH example_catalog)) =
       intrinsic_p (get_intrinsics depth_profile)).
Proof.
  split; [vm_compute; reflexivity|]. split; [vm_compute; reflexivity|].
  apply (depth_translation_terms example_catalog depth_and_color_enabled
           depth_profile depth_and_color "camera_depth_optical_frame").
  - apply depth_and_color_reachable.
  - reflexivity.
  - vm_compute. reflexivity.
Defined.

(** C6, on the concrete node: a color frame on the streaming node. *)
Lemma publishImageTopic_headers_witness :
  ∃ st' img info,
    publishImageTopic example_catalog color_enabled color_frame 1000 streaming
      = Returns tt st' ∧
    published st' =
      published streaming ++
      [(create_publisher "/camera/color/image_raw",
        if use_intra_process_comms color_enabled
        then image_unique img else image_shared img);
       (create_publisher "/camera/color/camera_info", camera_info info)] ∧
    Header.frame_id (Image.header img) = "camera_color_optical_frame" ∧
    Header.stamp (Image.header img) = 1000 ∧
    Header.stamp (CameraInfo.header info) = 1000 ∧
    camera_info_of st' (get_profile color_frame) = info.
Proof.
  apply (publishImageTopic_headers example_catalog color_enabled color_frame
           1000 streaming 16 "rgb8").
  all: vm_compute; reflexivity.
Defined.



(** ** The configuration mirrors the enable map *)

Lemma mirror_enable (cfg : config) (en : gmap stream_index_pair bool)
  stream rq :
  (∀ s, bool_decide (is_Some (cfg !! s)) = default false (en !! s)) →
  ∀ s, bool_decide (is_Some (enable_stream stream rq cfg !! s)) =
       default false (<[stream := true]> en !! s).
Proof.
  intros Hm s. unfold enable_stream.
  destruct (decide (stream = s)) as [->|Hne].
  - by rewrite !lookup_insert_eq.
  - by rewrite !lookup_insert_ne.
Qed.

Lemma mirror_disable (cfg : config) (en : gmap stream_index_pair bool)
  stream :
  (∀ s, bool_decide (is_Some (cfg !! s)) = default false (en !! s)) →
  ∀ s, bool_decide (is_Some (disable_stream stream cfg !! s)) =
       default false (<[stream := false]> en !! s).
Proof.
  intros Hm s. unfold disable_stream.
  destruct (decide (stream = s)) as [->|Hne].
  - by rewrite lookup_delete_eq, lookup_insert_eq.
  - by rewrite lookup_delete_ne, lookup_insert_ne.
Qed.

Lemma mirror_subscript (cfg : config) (en : gmap stream_index_pair bool)
  stream :
  (∀ s, bool_decide (is_Some (cfg !! s)) = default false (en !! s)) →
  ∀ s, bool_decide (is_Some (cfg !! s)) =
       default false (map_subscript false stream en !! s).
Proof. intros Hm s. by rewrite map_subscript_default. Qed.

Lemma mirror_reenable (cfg : config) (en : gmap stream_index_pair bool)
  stream rq :
  (∀ s, bool_decide (is_Some (cfg !! s)) = default false (en !! s)) →
  default false (en !! stream) = true →
  ∀ s, bool_decide (is_Some (enable_stream stream rq cfg !! s)) =
       default false (map_subscript false stream en !! s).
Proof.
  intros Hm He s. rewrite map_subscript_default. unfold enable_stream.
  destruct (decide (stream = s)) as [->|Hne].
  - by rewrite lookup_insert_eq, He.
  - by rewrite lookup_insert_ne.
Qed.

Section Mirror.
Variable cat : Catalog.
Variable env : Platform.

Lemma declare_video_parameters_frame stream c e :
  preserves (λ st, cfg_ st = c ∧ enable_ st = e)
    (declare_video_parameters cat env stream).
Proof. repeat (first [done | ok_step]). Qed.

Lemma toggleStream_keeps_mirror stream param st r st' :
  cfg_mirrors_enable st →
  toggleStream cat stream param st = Returns r st' →
  cfg_mirrors_enable st'.
Proof.
  unfold cfg_mirrors_enable, toggleStream. intros Hm.
  case_bool_decide; mrun; [by intros [= <- <-]|].
  destruct param as [|b| | | | | | | |]; try done.
  mrun. unfold log_stream_name, at_.
  destruct b; mrun.
  - destruct (default false (enable_ st !! stream)) eqn:E; mrun.
    { intros [= <- <-]. simpl. by apply mirror_subscript. }
    destruct (stream_eqb stream (ACCEL cat) || stream_eqb stream (GYRO cat) ||
              stream_eqb stream (POSE cat)); mrun.
    + destruct (STREAM_NAME cat !! stream.1); mrun; [|done].
      intros [= <- <-]. simpl. apply mirror_enable. by apply mirror_subscript.
    + destruct (STREAM_FORMAT cat !! stream.1); mrun; [|done].
      destruct (STREAM_NAME cat !! stream.1); mrun; [|done].
      intros [= <- <-]. simpl. apply mirror_enable. by apply mirror_subscript.
  - destruct (default false (enable_ st !! stream)) eqn:E; mrun.
    + destruct (STREAM_NAME cat !! stream.1); mrun; [|done].
      intros [= <- <-]. simpl. apply mirror_disable. by apply mirror_subscript.
    + intros [= <- <-]. simpl. by apply mirror_subscript.
Qed.

Lemma setupStream_keeps_mirror stream st st' :
  cfg_mirrors_enable st →
  setupStream cat env stream st = Returns tt st' →
  cfg_mirrors_enable st'.
Proof.
  unfold cfg_mirrors_enable, setupStream, parameter_name. intros Hm.
  mrun. unfold at_ at 1.
  destruct (STREAM_NAME cat !! stream.1) as [name|] eqn:En; mrun; [|done].
  unfold declare_parameter at 1. mrun.
  destruct (node_parameters st !! _) eqn:Ed; mrun; [done|].
  unfold get_bool.
  destruct (default _ _) as [|enable| | | | | | | |]; mrun; try done.
  destruct (stream_eqb stream (ACCEL cat) || stream_eqb stream (GYRO cat));
    mrun.
  { unfold at_. destruct (SAMPLE_TOPIC cat !! stream); mrun; [|done].
    destruct (INFO_TOPIC cat !! stream); mrun; [|done].
    destruct enable; mrun; intros [= <-]; simpl; [by apply mirror_enable|done]. }
  destruct (stream_eqb stream (POSE cat)); mrun.
  { unfold at_. destruct (SAMPLE_TOPIC cat !! stream); mrun; [|done].
    destruct enable; mrun; intros [= <-]; simpl; [by apply mirror_enable|done]. }
  match goal with
  | |- context [declare_video_parameters cat env stream ?st1] =>
      pose proof (declare_video_parameters_frame stream (cfg_ st) (enable_ st)
                    st1 (conj eq_refl eq_refl)) as Hf;
      destruct (declare_video_parameters cat env stream st1)
        as [[res fps] st2| |]; [|done..]
  end.
  simpl in Hf. destruct Hf as [Hc He].
  unfold setup_video_stream. mrun.
  destruct res as [|w [|h rest]]; mrun; [done..|].
  destruct fps as [fps|]; mrun; [|done].
  unfold at_. destruct (SAMPLE_TOPIC cat !! stream); mrun; [|done].
  destruct (INFO_TOPIC cat !! stream); mrun; [|done].
  destruct enable; mrun.
  - destruct (STREAM_FORMAT cat !! stream.1); mrun; [|done].
    intros [= <-]. simpl. rewrite Hc, He. by apply mirror_enable.
  - intros [= <-]. simpl. by rewrite Hc, He.
Qed.

Lemma changeResolution_keeps_mirror stream param st r st' :
  cfg_mirrors_enable st → enabled st stream = true →
  changeResolution cat env stream param st = Returns r st' →
  cfg_mirrors_enable st'.
Proof.
  unfold cfg_mirrors_enable, changeResolution, enabled. intros Hm Hen.
  case_bool_decide; mrun; [by intros [= <- <-]|].
  destruct param as [| | | | | | |res| |]; try done.
  mrun. destruct res as [|w [|h rest]]; mrun; [done..|].
  unfold at_. destruct (STREAM_FORMAT cat !! stream.1); mrun; [|done].
  destruct (can_resolve env _); mrun.
  - rewrite Hen. mrun. intros [= <- <-]. simpl. by apply mirror_reenable.
  - intros [= <- <-]. simpl. intros s.
    rewrite <- (map_subscript_default false stream s (enable_ st)).
    by apply mirror_reenable.
Qed.

Lemma changeFPS_keeps_mirror stream param st r st' :
  cfg_mirrors_enable st → enabled st stream = true →
  changeFPS cat env stream param st = Returns r st' →
  cfg_mirrors_enable st'.
Proof.
  unfold cfg_mirrors_enable, changeFPS, enabled. intros Hm Hen.
  case_bool_decide; mrun; [by intros [= <- <-]|].
  destruct param as [| |fps| | | | | | |]; try done.
  mrun. unfold at_. destruct (STREAM_FORMAT cat !! stream.1); mrun; [|done].
  destruct (can_resolve env _); mrun.
  - rewrite Hen. mrun. intros [= <- <-]. simpl. by apply mirror_reenable.
  - intros [= <- <-]. simpl. intros s.
    rewrite <- (map_subscript_default false stream s (enable_ st)).
    by apply mirror_reenable.
Qed.

(** The SDK configuration has an entry for exactly the enabled streams
    after [setupStream] and [toggleStream], whenever they return from a
    state where it did, and after [changeResolution] and [changeFPS] of a
    stream that is enabled. *)
Theorem setup_and_toggle_keep_mirror (st : RealSenseBase) :
  cfg_mirrors_enable st →
  (∀ stream st',
     setupStream cat env stream st = Returns tt st' → cfg_mirrors_enable st') ∧
  (∀ stream param r st',
     toggleStream cat stream param st = Returns r st' →
     cfg_mirrors_enable st') ∧
  (∀ stream param r st',
     enabled st stream = true →
     changeResolution cat env stream param st = Returns r st' →
     cfg_mirrors_enable st') ∧
  (∀ stream param r st',
     enabled st stream = true →
     changeFPS cat env stream param st = Returns r st' →
     cfg_mirrors_enable st').
Proof.
  intros Hm. repeat split; intros.
  - by eapply setupStream_keeps_mirror.
  - by eapply toggleStream_keeps_mirror.
  - by eapply changeResolution_keeps_mirror.
  - by eapply changeFPS_keeps_mirror.
Qed.
End Mirror.

(** ** Starting, calibrating and publishing: edges *)

Section Edges.
Variable cat : Catalog.
Variable env : Platform.

Lemma updateVideoStreamCalibData_frame vp c l :
  preserves (λ st, cfg_ st = c ∧ calls st = l)
    (updateVideoStreamCalibData cat vp).
Proof. repeat (first [done | ok_step]). Qed.

Lemma calibrated_stamp frame_id i b1 b2 :
  Header.stamp (CameraInfo.header b1) = Header.stamp (CameraInfo.header b2) →
  calibrated frame_id i b1 = calibrated frame_id i b2.
Proof. unfold calibrated. by intros ->. Qed.

Ltac other_record :=
  solve [ unfold camera_info_of in *; simpl;
          rewrite ?map_subscript_default, ?lookup_insert_ne by done; done ].

Lemma updateVideoStreamCalibData_other vp s c :
  s ≠ (stream_type vp, stream_index vp) →
  preserves (λ st, camera_info_of st s = c)
    (updateVideoStreamCalibData cat vp).
Proof. intros Hne. repeat (first [other_record | ok_step]). Qed.

(** One calibration, whichever way it ends. *)
Lemma updateVideoStreamCalibData_step vp st :
  calibration_cache_ok st →
  match updateVideoStreamCalibData cat vp st with
  | Returns _ st0 =>
      ∃ frame_id,
        OPTICAL_FRAME_ID cat !! (stream_type vp, stream_index vp)
          = Some frame_id ∧
        camera_info_of st0 (stream_type vp, stream_index vp)
          = calibrated frame_id (get_intrinsics vp)
              (camera_info_of st (stream_type vp, stream_index vp)) ∧
        (∀ s, s ≠ (stream_type vp, stream_index vp) →
              camera_info_of st0 s = camera_info_of st s) ∧
        cfg_ st0 = cfg_ st ∧ calls st0 = calls st
  | Throws _ st0 => cfg_ st0 = cfg_ st ∧ calls st0 = calls st
  | Undefined _ => False
  end.
Proof.
  intros Hok.
  pose proof (updateVideoStreamCalibData_frame vp (cfg_ st) (calls st) st
                (conj eq_refl eq_refl)) as Hframe.
  assert (∀ s, s ≠ (stream_type vp, stream_index vp) →
            outcome_ok (λ st0, camera_info_of st0 s = camera_info_of st s)
              (updateVideoStreamCalibData cat vp st)) as Hother
    by (intros s Hs; by apply updateVideoStreamCalibData_other).
  destruct (OPTICAL_FRAME_ID cat !! (stream_type vp, stream_index vp))
    as [frame_id|] eqn:Hfid.
  - destruct (updateVideoStreamCalibData_run cat vp (enabled st) _ frame_id
                (Hok _) Hfid st eq_refl (λ _, eq_refl))
      as (st0 & Hrun & Hci & _).
    rewrite Hrun in *. simpl in *. exists frame_id.
    destruct Hframe. repeat split; try done; intros s Hs; by apply Hother.
  - assert (∃ st0, updateVideoStreamCalibData cat vp st
                   = Throws (out_of_range "OPTICAL_FRAME_ID") st0)
      as [st0 Hthrow].
    { unfold updateVideoStreamCalibData, fill_calibration.
      cbv zeta. unfold bind at 1. unfold bind at 1.
      unfold update_camera_info at 1. unfold bind at 1. simpl.
      unfold bind at 1. unfold update_camera_info at 1. unfold bind at 1.
      simpl. unfold bind at 1. unfold at_ at 1. rewrite Hfid. simpl. eauto. }
    rewrite Hthrow in *. exact Hframe.
Qed.

(** The loop of [startPipeline] over the resolved profiles. *)
Lemma calibrate_profiles profiles :
  ∀ st, calibration_cache_ok st →
  match
    for_ profiles
      (λ profile,
         match profile with
         | video_profile vp => updateVideoStreamCalibData cat vp
         | motion_profile _ => ret tt
         end) st
  with
  | Returns _ st1 =>
      cfg_ st1 = cfg_ st ∧ calls st1 = calls st ∧
      ∀ s, match last_video_profile s profiles with
           | Some vp =>
               ∃ frame_id,
                 OPTICAL_FRAME_ID cat !! s = Some frame_id ∧
                 camera_info_of st1 s
                   = calibrated frame_id (get_intrinsics vp)
                       (camera_info_of st s)
           | None => camera_info_of st1 s = camera_info_of st s
           end
  | Throws _ st1 => cfg_ st1 = cfg_ st ∧ calls st1 = calls st
  | Undefined _ => False
  end.
Proof.
  induction profiles as [|p l IH]; intros st Hok.
  - simpl. repeat split.
  - simpl for_. unfold bind. destruct p as [vp|m].
    + pose proof (updateVideoStreamCalibData_step vp st Hok) as Hstep.
      pose proof (updateVideoStreamCalibData_cache_ok cat vp st Hok) as Hok0.
      destruct (updateVideoStreamCalibData cat vp st) as [[] st0|e st0|];
        [|exact Hstep..].
      simpl in Hok0.
      destruct Hstep as (fid0 & Hfid0 & Hci0 & Hother0 & Hc0 & Hl0).
      specialize (IH st0 Hok0).
      destruct (for_ l _ st0) as [[] st1|e st1|]; [|by destruct IH; split; congruence|done].
      destruct IH as (Hc1 & Hl1 & Hall).
      split; [congruence|]. split; [congruence|].
      intros s. specialize (Hall s). simpl.
      destruct (last_video_profile s l) as [vp'|].
      * destruct Hall as (fid & Hfid & Hci). exists fid. split; [done|].
        rewrite Hci. apply calibrated_stamp.
        destruct (decide (s = (stream_type vp, stream_index vp))) as [->|Hne].
        -- by rewrite Hci0.
        -- by rewrite Hother0.
      * case_decide as Hs.
        -- subst s. exists fid0. split; [done|]. by rewrite Hall, Hci0.
        -- rewrite Hall. apply Hother0. congruence.
    + simpl. specialize (IH st Hok).
      destruct (for_ l _ st) as [[] st1|e st1|]; [|done..].
      destruct IH as (Hc1 & Hl1 & Hall). repeat split; try done.
      intros s. specialize (Hall s). simpl.
      by destruct (last_video_profile s l).
Qed.

(** In every state the object can be in, [startPipeline] starts the
    pipeline only once every resolved video profile has been calibrated:
    when it returns, the configuration resolved, is unchanged, the one
    call made on the pipeline is the start with it, and the cached record
    of every stream with a resolved video profile is the calibration of
    (the last) such profile, the other records being untouched; when it
    throws (the configuration does not resolve, or a calibration throws)
    configuration and pipeline calls are as before, and for an
    unresolvable configuration the whole object is; it never runs into
    undefined behaviour. *)
Theorem startPipeline_calibrates_then_starts (st : RealSenseBase) :
  reachable cat env st →
  match startPipeline cat env st with
  | Returns _ st' =>
      ∃ profiles,
        resolve env (cfg_ st) = Some profiles ∧ cfg_ st' = cfg_ st ∧
        calls st' = calls st ++ [pipeline_start (cfg_ st) publishTopicsCallback] ∧
        ∀ s, match last_video_profile s profiles with
             | Some vp =>
                 ∃ frame_id,
                   OPTICAL_FRAME_ID cat !! s = Some frame_id ∧
                   camera_info_of st' s
                     = calibrated frame_id (get_intrinsics vp)
                         (camera_info_of st s)
             | None => camera_info_of st' s = camera_info_of st s
             end
  | Throws e st' =>
      cfg_ st' = cfg_ st ∧ calls st' = calls st ∧
      (resolve env (cfg_ st) = None → e = rs2_error ∧ st' = st)
  | Undefined _ => False
  end.
Proof.
  intros Hreach. pose proof (reachable_cache_ok cat env st Hreach) as Hok.
  unfold startPipeline. mrun.
  destruct (resolve env (cfg_ st)) as [profiles|] eqn:Hres; mrun; [|done].
  pose proof (calibrate_profiles profiles st Hok) as Hloop.
  destruct (for_ profiles _ st) as [[] st1|e st1|]; simpl; [|by destruct Hloop|done].
  destruct Hloop as (Hc & Hl & Hall).
  exists profiles. rewrite Hc, Hl. repeat split; try done.
Qed.

(** A stream without an optical frame in the catalog: the call throws
    [out_of_range] after lines 144-145, so the cached record has the new
    width and height and nothing else of the new calibration; the records
    of the other streams are as they were. *)
Theorem updateVideoStreamCalibData_missing_frame (vp : video_stream_profile)
  (st : RealSenseBase) :
  OPTICAL_FRAME_ID cat !! (stream_type vp, stream_index vp) = None →
  ∃ st',
    updateVideoStreamCalibData cat vp st
      = Throws (out_of_range "OPTICAL_FRAME_ID") st' ∧
    camera_info_of st' (stream_type vp, stream_index vp)
      = with_size (to_uint32 (Intrinsics.width (get_intrinsics vp)))
                  (to_uint32 (Intrinsics.height (get_intrinsics vp)))
                  (camera_info_of st (stream_type vp, stream_index vp)) ∧
    (∀ s, s ≠ (stream_type vp, stream_index vp) →
          camera_info_of st' s = camera_info_of st s) ∧
    enable_ st' = enable_ st ∧ cfg_ st' = cfg_ st ∧ calls st' = calls st.
Proof.
  intros Hfid. unfold updateVideoStreamCalibData, fill_calibration.
  cbv zeta. unfold bind at 1. unfold bind at 1.
  unfold update_camera_info at 1. unfold bind at 1. simpl.
  unfold bind at 1. unfold update_camera_info at 1. unfold bind at 1. simpl.
  unfold bind at 1. unfold at_ at 1. rewrite Hfid. simpl.
  eexists. split; [reflexivity|]. unfold camera_info_of. simpl.
  rewrite !lookup_insert_eq. simpl. repeat split.
  intros s Hs. by rewrite !lookup_insert_ne.
Qed.

(** A frame of a stream that was never set up: the image publisher of
    the stream is null, and publishing through it is undefined. *)
Theorem publishImageTopic_null_publisher (frame : video_frame) (time : Z)
  (st : RealSenseBase) (cv_format : Z) (encoding frame_id : string) :
  CV_FORMAT cat !! (get_profile frame).1 = Some cv_format →
  MSG_ENCODING cat !! (get_profile frame).1 = Some encoding →
  OPTICAL_FRAME_ID cat !! get_profile frame = Some frame_id →
  image_pub_ st !! get_profile frame = None →
  publishImageTopic cat env frame time st
    = Undefined (null_publisher (get_profile frame)).
Proof.
  intros Hcv Henc Hfid Hip. unfold publishImageTopic, at_, publish.
  cbv zeta. rewrite Hcv, Henc, Hfid.
  destruct (use_intra_process_comms env); mrun; by rewrite Hip.
Qed.

(** Whenever [publishImageTopic] returns, the cached calibration of the
    frame's stream differs from what it was in the stamp only, the
    records of the other streams are untouched, and so are the
    configuration, the enable map, the stream info and the pipeline. *)
Theorem publishImageTopic_stamps_only (frame : video_frame) (time : Z)
  (st st' : RealSenseBase) :
  publishImageTopic cat env frame time st = Returns tt st' →
  camera_info_of st' (get_profile frame)
    = with_header (set_stamp time) (camera_info_of st (get_profile frame)) ∧
  (∀ s, s ≠ get_profile frame → camera_info_of st' s = camera_info_of st s) ∧
  cfg_ st' = cfg_ st ∧ enable_ st' = enable_ st ∧
  stream_info_ st' = stream_info_ st ∧ calls st' = calls st.
Proof.
  unfold publishImageTopic, at_, publish. cbv zeta.
  destruct (CV_FORMAT cat !! _); mrun; [|done].
  destruct (MSG_ENCODING cat !! _); [|by destruct (use_intra_process_comms env)].
  destruct (OPTICAL_FRAME_ID cat !! _);
    [|by destruct (use_intra_process_comms env)].
  destruct (use_intra_process_comms env); mrun;
    (destruct (image_pub_ st !! _); mrun; [|done]);
    unfold update_camera_info, camera_info_at, camera_info_of; mrun;
    (destruct (camera_info_pub_ st !! _); mrun; [|done]);
    intros [= <-]; simpl;
    rewrite map_subscript_default, lookup_insert_eq;
    (repeat split; try done);
    intros idx Hidx; by rewrite map_subscript_default, lookup_insert_ne.
Qed.

(** Whenever [setupStream] returns, the stream has the publishers of its
    kind: IMU sample and IMU info for ACCEL and GYRO, odometry for POSE,
    image and camera info, together with a stream info entry, for any
    other stream. *)
Theorem setupStream_creates_publishers (stream : stream_index_pair)
  (st st' : RealSenseBase) :
  setupStream cat env stream st = Returns tt st' →
  if stream_eqb stream (ACCEL cat) || stream_eqb stream (GYRO cat)
  then is_Some (imu_pub_ st' !! stream) ∧ is_Some (imu_info_pub_ st' !! stream)
  else if stream_eqb stream (POSE cat)
  then is_Some (odom_pub_ st')
  else is_Some (image_pub_ st' !! stream) ∧
       is_Some (camera_info_pub_ st' !! stream) ∧
       is_Some (stream_info_ st' !! stream).
Proof.
  unfold setupStream, parameter_name. mrun. unfold at_ at 1.
  destruct (STREAM_NAME cat !! stream.1) as [name|]; mrun; [|done].
  unfold declare_parameter at 1. mrun.
  destruct (node_parameters st !! _); mrun; [done|].
  unfold get_bool.
  destruct (default _ _) as [|enable| | | | | | | |]; mrun; try done.
  destruct (stream_eqb stream (ACCEL cat) || stream_eqb stream (GYRO cat));
    mrun.
  { unfold at_. destruct (SAMPLE_TOPIC cat !! stream); mrun; [|done].
    destruct (INFO_TOPIC cat !! stream); mrun; [|done].
    destruct enable; mrun; intros [= <-]; simpl;
      split; apply map_insert_is_Some. }
  destruct (stream_eqb stream (POSE cat)); mrun.
  { unfold at_. destruct (SAMPLE_TOPIC cat !! stream); mrun; [|done].
    destruct enable; mrun; intros [= <-]; simpl; eauto. }
  match goal with
  | |- context [declare_video_parameters cat env stream ?st1] =>
      destruct (declare_video_parameters cat env stream st1)
        as [[res fps] st2| |]; [|done..]
  end.
  unfold setup_video_stream. mrun.
  destruct res as [|w [|h rest]]; mrun; [done..|].
  destruct fps as [fps|]; mrun; [|done].
  unfold at_. destruct (SAMPLE_TOPIC cat !! stream); mrun; [|done].
  destruct (INFO_TOPIC cat !! stream); mrun; [|done].
  destruct enable; mrun.
  - destruct (STREAM_FORMAT cat !! stream.1); mrun; [|done].
    intros [= <-]. simpl. repeat split; apply map_insert_is_Some.
  - intros [= <-]. simpl. repeat split; apply map_insert_is_Some.
Qed.

Lemma parameter_names_differ (name index a b : string) :
  a ≠ b → name +:+ index +:+ a ≠ name +:+ index +:+ b.
Proof. intros Hab H. by do 2 apply (inj _) in H. Qed.

(** The [resolution] parameter of a video stream supplied from outside
    with fewer than two numbers: [setupStream] declares the three
    parameters of the stream and then reads past the end of [res]. *)
Theorem setupStream_short_resolution (stream : stream_index_pair)
  (st : RealSenseBase) (name : string) (res : list Z) :
  stream_eqb stream (ACCEL cat) || stream_eqb stream (GYRO cat) ||
    stream_eqb stream (POSE cat) = false →
  stream_eqb stream (COLOR cat) || stream_eqb stream (DEPTH cat) ||
    stream_eqb stream (INFRA1 cat) || stream_eqb stream (INFRA2 cat) ||
    (stream_eqb stream (FISHEYE1 cat) || stream_eqb stream (FISHEYE2 cat))
    = true →
  STREAM_NAME cat !! stream.1 = Some name →
  node_parameters st !! (name +:+ pretty stream.2 +:+ ".enabled") = None →
  node_parameters st !! (name +:+ pretty stream.2 +:+ ".resolution") = None →
  node_parameters st !! (name +:+ pretty stream.2 +:+ ".fps") = None →
  get_type (default (PARAMETER_BOOL false)
              (parameter_overrides env
                 !! (name +:+ pretty stream.2 +:+ ".enabled")))
    = ParameterType.PARAMETER_BOOL →
  get_type (default (PARAMETER_INTEGER (DEFAULT_IMAGE_FPS cat))
              (parameter_overrides env
                 !! (name +:+ pretty stream.2 +:+ ".fps")))
    = ParameterType.PARAMETER_INTEGER →
  parameter_overrides env !! (name +:+ pretty stream.2 +:+ ".resolution")
    = Some (PARAMETER_INTEGER_ARRAY res) →
  (length res < 2)%nat →
  setupStream cat env stream st
    = Undefined (vector_subscript (length res) (length res)).
Proof.
  intros Himu Hvideo Hname Hen Hres Hfps Hbool Hint Hov Hlen.
  apply orb_false_elim in Himu as [Himu Hpose].
  unfold setupStream, parameter_name, at_. rewrite Himu, Hpose, Hname. mrun.
  unfold declare_parameter at 1. mrun. rewrite Hen. mrun.
  destruct (default (PARAMETER_BOOL false) _) as [|enable| | | | | | | |];
    try discriminate Hbool. mrun.
  unfold declare_video_parameters, parameter_name, at_, declare_parameter.
  rewrite Hname.
  assert (∀ d, default d (parameter_overrides env
                 !! (name +:+ pretty stream.2 +:+ ".resolution"))
               = PARAMETER_INTEGER_ARRAY res) as Hres_v
    by (intros d; by rewrite Hov).
  destruct (stream_eqb stream (COLOR cat) || stream_eqb stream (DEPTH cat) ||
            stream_eqb stream (INFRA1 cat) || stream_eqb stream (INFRA2 cat));
    simpl in Hvideo; [|rewrite Hvideo]; mrun;
    rewrite lookup_insert_ne by (by apply parameter_names_differ);
    rewrite Hres; mrun; rewrite Hres_v; mrun;
    rewrite !lookup_insert_ne by (by apply parameter_names_differ);
    rewrite Hfps; mrun;
    (destruct (default (PARAMETER_INTEGER _) _) as [| |fps| | | | | | |];
       try discriminate Hint); mrun;
    unfold setup_video_stream; mrun;
    by destruct res as [|w [|h rest]]; [..|simpl in Hlen; lia].
Qed.
End Edges.

(** In every state the object can reach, the calibration record of every
    stream has [K] and [R] of nine entries and [P] of twelve, and [K] is
    zero at the four places the calibration never writes. *)
Theorem reachable_calibration_shape (cat : Catalog) (env : Platform)
  (st : RealSenseBase) (s : stream_index_pair) :
  reachable cat env st →
  length (CameraInfo.k (camera_info_of st s)) = 9%nat ∧
  length (CameraInfo.r (camera_info_of st s)) = 9%nat ∧
  length (CameraInfo.p (camera_info_of st s)) = 12%nat ∧
  CameraInfo.k (camera_info_of st s) !! 1%nat = Some 0%float ∧
  CameraInfo.k (camera_info_of st s) !! 3%nat = Some 0%float ∧
  CameraInfo.k (camera_info_of st s) !! 6%nat = Some 0%float ∧
  CameraInfo.k (camera_info_of st s) !! 7%nat = Some 0%float.
Proof. intros Hreach. by apply (reachable_cache_ok cat env st Hreach s). Qed.

(** ** The further properties on the concrete node *)

Lemma streaming_reachable : reachable example_catalog color_enabled streaming.
Proof.
  exists [call_setupStream color; call_startPipeline].
  vm_compute. reflexivity.
Qed.

(** [reachable_calibration_shape], on the concrete node. *)
Lemma reachable_calibration_shape_witness :
  length (CameraInfo.k (camera_info_of streaming color)) = 9%nat ∧
  length (CameraInfo.r (camera_info_of streaming color)) = 9%nat ∧
  length (CameraInfo.p (camera_info_of streaming color)) = 12%nat ∧
  CameraInfo.k (camera_info_of streaming color) !! 1%nat = Some 0%float ∧
  CameraInfo.k (camera_info_of streaming color) !! 3%nat = Some 0%float ∧
  CameraInfo.k (camera_info_of streaming color) !! 6%nat = Some 0%float ∧
  CameraInfo.k (camera_info_of streaming color) !! 7%nat = Some 0%float.
Proof.
  apply (reachable_calibration_shape example_catalog color_enabled streaming
           color streaming_reachable).
Defined.

(** [toggleStream_enable_restart], on the concrete node. *)
Lemma toggleStream_enable_restart_witness :
  enabled idle color = false ∧
  enabled (state_of (toggleStream example_catalog color (PARAMETER_BOOL true))
                    idle) color = true ∧
  calls (state_of (toggleStream example_catalog color (PARAMETER_BOOL true))
                  idle) =
  calls idle ++
    [pipeline_stop; sleep_for 200;
     pipeline_start
       (cfg_ (state_of (toggleStream example_catalog color
                          (PARAMETER_BOOL true)) idle))
       publishTopicsCallback].
Proof.
  destruct (toggleStream_enable_restart example_catalog color idle
              {| successful := true; reason := "" |}
              (state_of (toggleStream example_catalog color
                           (PARAMETER_BOOL true)) idle))
    as (H1 & H2 & _ & H3).
  - vm_compute. reflexivity.
  - reflexivity.
  - exact (conj H1 (conj H2 H3)).
Defined.

(** [toggleStream_disable_no_restart], on the concrete node. *)
Lemma toggleStream_disable_no_restart_witness :
  ∃ st',
    toggleStream example_catalog color (PARAMETER_BOOL false) streaming =
      Returns {| successful := true; reason := "" |} st' ∧
    cfg_ st' = delete color (cfg_ streaming) ∧
    enable_ st' = <[color := false]> (enable_ streaming) ∧
    calls st' = calls streaming ∧
    stream_info_ st' = stream_info_ streaming.
Proof.
  apply (toggleStream_disable_no_restart example_catalog color streaming
           "Color").
  - vm_compute. reflexivity.
  - vm_compute. reflexivity.
Defined.

(** [toggleStream_round_trip], on the concrete node. *)
Lemma toggleStream_round_trip_witness :
  ∃ st2,
    toggleStream example_catalog color (PARAMETER_BOOL false)
      (state_of (toggleStream example_catalog color (PARAMETER_BOOL true))
                idle) =
      Returns {| successful := true; reason := "" |} st2 ∧
    cfg_ st2 = cfg_ idle ∧
    (∀ s, enabled st2 s = enabled idle s) ∧
    (∀ s, stream_info example_catalog st2 s = stream_info example_catalog idle s) ∧
    calls st2 = calls idle ++
      [pipeline_stop; sleep_for 200;
       pipeline_start
         (cfg_ (state_of (toggleStream example_catalog color
                            (PARAMETER_BOOL true)) idle))
         publishTopicsCallback].
Proof.
  apply (toggleStream_round_trip example_catalog color idle
           {| successful := true; reason := "" |}).
  - vm_compute. reflexivity.
  - vm_compute. reflexivity.
  - reflexivity.
Defined.

(** [changeResolution_rejected], on the concrete node. *)
Lemma changeResolution_rejected_witness :
  cfg_ (state_of (changeResolution example_catalog color_enabled color
                    (PARAMETER_INTEGER_ARRAY [99999; 99999])) streaming)
    = <[color := request (to_int 99999) (to_int 99999) RS2_FORMAT_RGB8 30]>
        (cfg_ streaming) ∧
  calls (state_of (changeResolution example_catalog color_enabled color
                     (PARAMETER_INTEGER_ARRAY [99999; 99999])) streaming)
    = calls streaming.
Proof.
  destruct (changeResolution_rejected example_catalog color_enabled color
              99999 99999 [] streaming
              {| successful := false; reason := "Unsupported resolution." |}
              (state_of (changeResolution example_catalog color_enabled color
                           (PARAMETER_INTEGER_ARRAY [99999; 99999])) streaming))
    as (_ & _ & _ & Hcalls & format & Hformat & Hcfg).
  - vm_compute. reflexivity.
  - reflexivity.
  - split; [|exact Hcalls]. rewrite Hcfg. f_equal.
    assert (format = RS2_FORMAT_RGB8) as ->
      by (vm_compute in Hformat; congruence).
    vm_compute. reflexivity.
Defined.

(** [changeFPS_rejected], on the concrete node. *)
Lemma changeFPS_rejected_witness :
  reason {| successful := false; reason := "Unsupported configuration." |}
    = "Unsupported configuration." ∧
  calls (state_of (changeFPS example_catalog color_enabled color
                     (PARAMETER_INTEGER 7)) streaming)
    = calls streaming ∧
  enable_ (state_of (changeFPS example_catalog color_enabled color
                       (PARAMETER_INTEGER 7)) streaming)
    = enable_ streaming.
Proof.
  destruct (changeFPS_rejected example_catalog color_enabled color 7 streaming
              {| successful := false; reason := "Unsupported configuration." |}
              (state_of (changeFPS example_catalog color_enabled color
                           (PARAMETER_INTEGER 7)) streaming))
    as (Hreason & _ & Hen & Hcalls & _).
  - vm_compute. reflexivity.
  - reflexivity.
  - exact (conj Hreason (conj Hcalls Hen)).
Defined.

(** [changeFPS_commits], on the concrete node. *)
Lemma changeFPS_commits_witness :
  stream_info_ (state_of (changeFPS example_catalog color_enabled color
                            (PARAMETER_INTEGER 15)) streaming) !! color
    = Some (set_fps (to_int 15) (stream_info example_catalog streaming color)) ∧
  calls (state_of (changeFPS example_catalog color_enabled color
                     (PARAMETER_INTEGER 15)) streaming)
    = calls streaming ++
      (if enabled streaming color
       then [pipeline_stop;
             pipeline_start
               (cfg_ (state_of (changeFPS example_catalog color_enabled color
                                  (PARAMETER_INTEGER 15)) streaming))
               publishTopicsCallback]
       else []).
Proof.
  destruct (changeFPS_commits example_catalog color_enabled color 15 streaming
              {| successful := true; reason := "" |}
              (state_of (changeFPS example_catalog color_enabled color
                           (PARAMETER_INTEGER 15)) streaming))
    as (Hinfo & _ & Hcalls).
  - vm_compute. reflexivity.
  - reflexivity.
  - exact (conj Hinfo Hcalls).
Defined.

(** [changeResolution_short_array], on the concrete node. *)
Lemma changeResolution_short_array_witness :
  changeResolution example_catalog color_enabled color
    (PARAMETER_INTEGER_ARRAY [640]) streaming
    = Undefined (vector_subscript (length [640]) (length [640])).
Proof.
  apply (changeResolution_short_array example_catalog color_enabled color
           [640] streaming).
  simpl. lia.
Defined.

Lemma streaming_mirrors : cfg_mirrors_enable streaming.
Proof.
  intros s. unfold cfg_has, enabled.
  assert (cfg_ streaming = {[ color := request 640 480 RS2_FORMAT_RGB8 30 ]})
    as -> by (vm_compute; reflexivity).
  assert (enable_ streaming = {[ color := true ]})
    as -> by (vm_compute; reflexivity).
  destruct (decide (s = color)) as [->|Hne].
  - by rewrite !lookup_singleton_eq.
  - by rewrite !lookup_singleton_ne.
Qed.

(** [setup_and_toggle_keep_mirror], on the concrete node: from the
    streaming state, where the color stream is enabled, setting up the
    depth stream, disabling the color stream, changing its resolution and
    changing its frame rate each leave the configuration mirroring the
    enable map. *)
Lemma setup_and_toggle_keep_mirror_witness :
  cfg_mirrors_enable
    (state_of (setupStream example_catalog color_enabled depth) streaming) ∧
  cfg_mirrors_enable
    (state_of (toggleStream example_catalog color (PARAMETER_BOOL false))
              streaming) ∧
  cfg_mirrors_enable
    (state_of (changeResolution example_catalog color_enabled color
                 (PARAMETER_INTEGER_ARRAY [1280; 720])) streaming) ∧
  cfg_mirrors_enable
    (state_of (changeFPS example_catalog color_enabled color
                 (PARAMETER_INTEGER 15)) streaming).
Proof.
  destruct (setup_and_toggle_keep_mirror example_catalog color_enabled
              streaming streaming_mirrors) as (Hsetup & Htoggle & Hres & Hfps).
  split; [|split; [|split]].
  - apply (Hsetup depth). vm_compute. reflexivity.
  - apply (Htoggle color (PARAMETER_BOOL false)
             {| successful := true; reason := "" |}).
    vm_compute. reflexivity.
  - apply (Hres color (PARAMETER_INTEGER_ARRAY [1280; 720])
             {| successful := true; reason := "" |}).
    + vm_compute. reflexivity.
    + vm_compute. reflexivity.
  - apply (Hfps color (PARAMETER_INTEGER 15)
             {| successful := true; reason := "" |}).
    + vm_compute. reflexivity.
    + vm_compute. reflexivity.
Defined.

Lemma color_ready_reachable :
  reachable example_catalog color_enabled color_ready.
Proof. exists [call_setupStream color]. vm_compute. reflexivity. Qed.

(** [startPipeline_calibrates_then_starts], on the concrete node: starting
    the pipeline with the color stream set up calibrates the color record
    and then starts. *)
Lemma startPipeline_calibrates_then_starts_witness :
  camera_info_of (state_of (startPipeline example_catalog color_enabled)
                            color_ready) color
    = calibrated "camera_color_optical_frame" (example_intrinsics 640 480)
        (camera_info_of color_ready color) ∧
  calls (state_of (startPipeline example_catalog color_enabled) color_ready)
    = calls color_ready ++
      [pipeline_start (cfg_ color_ready) publishTopicsCallback].
Proof.
  pose proof (startPipeline_calibrates_then_starts example_catalog
                color_enabled color_ready color_ready_reachable) as H.
  assert (startPipeline example_catalog color_enabled color_ready
          = Returns tt (state_of (startPipeline example_catalog color_enabled)
                                 color_ready)) as E
    by (vm_compute; reflexivity).
  rewrite E in H. destruct H as (profiles & Hres & _ & Hcalls & Hall).
  split; [|exact Hcalls]. specialize (Hall color).
  assert (Some profiles
          = Some [video_profile
                    {| stream_type := RS2_STREAM_COLOR; stream_index := 0;
                       get_intrinsics := example_intrinsics 640 480 |}])
    as [= ->] by (rewrite <- Hres; vm_compute; reflexivity).
  simpl in Hall. destruct Hall as (frame_id & Hfid & Hinfo).
  assert (Some frame_id = Some "camera_color_optical_frame") as [= ->]
    by (rewrite <- Hfid; vm_compute; reflexivity).
  exact Hinfo.
Defined.

(** [updateVideoStreamCalibData_missing_frame], on the concrete node. *)
Lemma updateVideoStreamCalibData_missing_frame_witness :
  ∃ st',
    updateVideoStreamCalibData example_catalog gyro_profile streaming
      = Throws (out_of_range "OPTICAL_FRAME_ID") st' ∧
    camera_info_of st' (stream_type gyro_profile, stream_index gyro_profile)
      = with_size
          (to_uint32 (Intrinsics.width (get_intrinsics gyro_profile)))
          (to_uint32 (Intrinsics.height (get_intrinsics gyro_profile)))
          (camera_info_of streaming
             (stream_type gyro_profile, stream_index gyro_profile)) ∧
    (∀ s, s ≠ (stream_type gyro_profile, stream_index gyro_profile) →
          camera_info_of st' s = camera_info_of streaming s) ∧
    enable_ st' = enable_ streaming ∧ cfg_ st' = cfg_ streaming ∧
    calls st' = calls streaming.
Proof.
  apply (updateVideoStreamCalibData_missing_frame example_catalog gyro_profile
           streaming).
  vm_compute. reflexivity.
Defined.

(** [publishImageTopic_null_publisher], on the concrete node. *)
Lemma publishImageTopic_null_publisher_witness :
  publishImageTopic example_catalog color_enabled color_frame 1000 constructed
    = Undefined (null_publisher (get_profile color_frame)).
Proof.
  apply (publishImageTopic_null_publisher example_catalog color_enabled
           color_frame 1000 constructed 16 "rgb8" "camera_color_optical_frame");
    vm_compute; reflexivity.
Defined.

(** [publishImageTopic_stamps_only], on the concrete node. *)
Lemma publishImageTopic_stamps_only_witness :
  camera_info_of (state_of (publishImageTopic example_catalog color_enabled
                              color_frame 1000) streaming)
                 (get_profile color_frame)
    = with_header (set_stamp 1000)
        (camera_info_of streaming (get_profile color_frame)) ∧
  calls (state_of (publishImageTopic example_catalog color_enabled
                     color_frame 1000) streaming)
    = calls streaming.
Proof.
  destruct (publishImageTopic_stamps_only example_catalog color_enabled
              color_frame 1000 streaming
              (state_of (publishImageTopic example_catalog color_enabled
                           color_frame 1000) streaming))
    as (Hinfo & _ & _ & _ & _ & Hcalls).
  - vm_compute. reflexivity.
  - exact (conj Hinfo Hcalls).
Defined.

(** [setupStream_creates_publishers], on the concrete node. *)
Lemma setupStream_creates_publishers_witness :
  is_Some (image_pub_ idle !! color) ∧
  is_Some (camera_info_pub_ idle !! color) ∧
  is_Some (stream_info_ idle !! color).
Proof.
  apply (setupStream_creates_publishers example_catalog all_disabled color
           constructed idle).
  vm_compute. reflexivity.
Defined.

(** [setupStream_short_resolution], on the concrete node. *)
Lemma setupStream_short_resolution_witness :
  setupStream example_catalog short_resolution color constructed
    = Undefined (vector_subscript (length [640]) (length [640])).
Proof.
  apply (setupStream_short_resolution example_catalog short_resolution color
           constructed "Color" [640]); vm_compute; reflexivity.
Defined.
